(** * OSINT MCP server: tool catalog, dispatcher, API client and prompts

    A shallow embedding of the TypeScript sources of the server
    (index.ts, api-client.ts, prompts.ts) and the properties of the
    dispatch / client contract layer that the specification states.

    Conventions of the embedding:
    - a JavaScript value that can occur in an argument bag or in a query
      parameter object is a [JsValue]: a primitive, an array or a plain
      object; numbers are the integers ([Z]), which is what identifiers,
      counts and HTTP statuses are, and [String] is the conversion of
      the values that have no [toString] of their own and of the integers
      that a double holds and prints in decimal; the argument bag of a
      tool call is taken to be present;
    - the [URL] class is not modelled: [new URL] is taken to accept the
      base URL, and a request records the string the URL is built from
      and the entries appended to its search parameters, before any
      normalisation or percent-encoding;
    - an object used as a dictionary (the argument bag, the header set,
      the prompt arguments) is a [gmap]; an object literal that is walked
      with [Object.entries] keeps its insertion order and is a list of
      pairs;
    - an [async] function is a computation in [Async]: it runs against a
      remote platform (what [fetch] answers), records every request it
      issues, and either returns or throws an [Error] with a message;
    - what the JavaScript platform supplies ([JSON.parse],
      [JSON.stringify]) is the [Platform] interface. *)

From Stdlib Require Import ZArith List Bool Ascii String.
From stdpp Require Import gmap strings list fin_maps pretty.

Local Open Scope string_scope.
Local Open Scope Z_scope.

(** ** JavaScript values *)

Module Js.

#[local] Set Warnings "-register-all".
Inductive JsValue : Type :=
| VUndefined
| VNull
| VBool (b : bool)
| VNum (n : Z)
| VStr (s : string)
| VArray (elements : list JsValue)
| VObject (fields : list (string * JsValue)).

(** [String(value)] and the conversion done by a template literal
    [`${value}`]. An array is the join of its elements with commas, in
    which [undefined] and [null] are empty; a plain object, one with no
    [toString] of its own, is [[object Object]]; an integer is printed
    in decimal, which is how the integers up to 2^53 are printed. *)
Fixpoint ToString (v : JsValue) : string :=
  match v with
  | VUndefined => "undefined"
  | VNull => "null"
  | VBool true => "true"
  | VBool false => "false"
  | VNum n => pretty n
  | VStr s => s
  | VArray elements =>
      let element x :=
        match x with
        | VUndefined | VNull => ""
        | _ => ToString x
        end in
      (fix join (l : list JsValue) : string :=
         match l with
         | [] => ""
         | [x] => element x
         | x :: rest => element x +:+ "," +:+ join rest
         end) elements
  | VObject _ => "[object Object]"
  end.

(** [value !== undefined && value !== null] *)
Definition defined (v : JsValue) : bool :=
  match v with
  | VUndefined | VNull => false
  | _ => true
  end.

(** Truthiness of an optional string ([string | undefined]), as tested
    by [if (x)], [x ? a : b] and [x || d]: the empty string and
    [undefined] are falsy. *)
Definition truthy (o : option string) : bool :=
  match o with
  | Some s => negb (String.eqb s "")
  | None => false
  end.

(** [`${x}`] for an optional string. *)
Definition interpolate (o : option string) : string :=
  match o with
  | Some s => s
  | None => "undefined"
  end.

(** [x || d] for an optional string and a number: the number when [x] is
    falsy; the result is only ever interpolated. *)
Definition or_default (o : option string) (d : Z) : string :=
  if truthy o then interpolate o else pretty d.

(** An argument bag, [Record<string, unknown>]. *)
Abbreviation Bag := (gmap string JsValue).

(** Property access [args.field]: a missing property reads as
    [undefined]. *)
Definition prop (args : Bag) (field : string) : JsValue :=
  default VUndefined (args !! field).

(** A [switch (name)] over string case labels whose cases all return:
    the first case whose label is strictly equal to [name] is taken, and
    [default] when there is none. *)
Definition switch {A : Type} (name : string) (cases : list (string * A))
    (default : A) : A :=
  match find (fun c => String.eqb name (fst c)) cases with
  | Some c => snd c
  | None => default
  end.

(** The double-quote character, which the templates of the source
  contain. *)
Definition dq : string := String (Ascii.ascii_of_nat 34) EmptyString.

End Js.
Export Js.

Notation "args .[ field ]" := (prop args field)
  (at level 1, left associativity, format "args .[ field ]").

(** ** The platform and the asynchronous computations *)

(** What the JavaScript runtime provides and the source only calls:
    [response.json()] parses the body text and may fail; the call-tool
    handler prints a result with [JSON.stringify(result, null, 2)]. *)
Class Platform : Type := {
  Json : Type;
  JSON_parse : string → option Json;
  (** [JSON.stringify(value, null, space)]; [None] when called with the
      value alone *)
  JSON_stringify : Json → option Z → string;
  (** [value ? a : b] on a parsed value *)
  JSON_truthy : Json → bool;
  (** message of the [SyntaxError] of a body that does not parse *)
  JSON_syntax_error : string → string;
}.

Module Http.

Inductive Method : Type := GET | POST.

(** The arguments of one [fetch] call. [url] is the string the URL was
    built from ([baseUrl] followed by the endpoint), [query] the entries
    appended to [url.searchParams], in order. *)
Record Request : Type := {
  req_method : Method;
  req_url : string;
  req_query : list (string * string);
  req_headers : gmap string string;
  req_body : option string;
}.

(** What [fetch] resolves to: a response with its status and body text,
    or a rejection (connection refused and the like). *)
Inductive FetchOutcome : Type :=
| Responded (status : Z) (text : string)
| Rejected (message : string).

Definition Remote : Type := Request → FetchOutcome.

(** [response.ok] *)
Definition ok (status : Z) : bool := (200 <=? status) && (status <=? 299).

Inductive Completion (A : Type) : Type :=
| Return (a : A)
| Throw (message : string).
Arguments Return {A} a.
Arguments Throw {A} message.

(** An asynchronous computation: against a remote platform it completes
    with a value or a thrown [Error], and has issued some requests. *)
Definition Async (A : Type) : Type := Remote → Completion A * list Request.

Definition ret {A} (a : A) : Async A := fun _ => (Return a, []).

Definition throw {A} (message : string) : Async A :=
  fun _ => (Throw message, []).

Definition bind {A B} (m : Async A) (k : A → Async B) : Async B :=
  fun remote =>
    match m remote with
    | (Return a, issued) =>
        let '(c, issued') := k a remote in (c, (issued ++ issued')%list)
    | (Throw message, issued) => (Throw message, issued)
    end.

(** [try { ... } catch (error) { ... }] *)
Definition try_catch {A} (m : Async A) (handler : string → Async A) : Async A :=
  fun remote =>
    match m remote with
    | (Return a, issued) => (Return a, issued)
    | (Throw message, issued) =>
        let '(c, issued') := handler message remote in (c, (issued ++ issued')%list)
    end.

(** [await fetch(url, init)] followed by nothing else: the response, as
    a pair of status and body text. *)
Definition fetch (r : Request) : Async (Z * string) :=
  fun remote =>
    match remote r with
    | Responded status text => (Return (status, text), [r])
    | Rejected message => (Throw message, [r])
    end.

Definition completion {A} (m : Async A) (remote : Remote) : Completion A :=
  fst (m remote).

Definition issued {A} (m : Async A) (remote : Remote) : list Request :=
  snd (m remote).

End Http.
Export Http.

Notation "'let*' x ':=' m 'in' k" := (bind m (fun x => k))
  (at level 10, x pattern, m at level 100, k at level 200, only parsing).

(** ** The API client (api-client.ts) *)

Module ApiClient.

Record ApiClientConfig : Type := {
  baseUrl : string;
  apiKey : option string;
  jwtToken : option string;
  (* Ory Kratos/Oathkeeper authentication *)
  oryUserId : option string;
  oryUserEmail : option string;
  oryUserRole : option string;
}.

(** The private fields of the class. *)
Record OsintApiClient : Type := {
  this_baseUrl : string;
  this_headers : gmap string string;
}.

(** [s.replace(/\/$/, '')]: one slash at the very end is removed. *)
Fixpoint strip_trailing_slash (s : string) : string :=
  match s with
  | EmptyString => EmptyString
  | String c EmptyString =>
      if Ascii.eqb c "/"%char then EmptyString else s
  | String c rest => String c (strip_trailing_slash rest)
  end.

(** The value of an optional string when [if (x)] takes its branch. *)
Definition when_set (o : option string) : option string :=
  if truthy o then o else None.

Definition json_headers : gmap string string :=
  <["Accept" := "application/json"]>
    (<["Content-Type" := "application/json"]> ∅).

(** [constructor(config)]. Authentication priority: the JWT token, then
    the API key (as a bearer token too), then the Ory Kratos headers. *)
Definition new_OsintApiClient (config : ApiClientConfig) : OsintApiClient :=
  let headers := json_headers in
  {| this_baseUrl := strip_trailing_slash (baseUrl config);
     this_headers :=
       match when_set (jwtToken config) with
       | Some jwt => <["Authorization" := "Bearer " +:+ jwt]> headers
       | None =>
         match when_set (apiKey config) with
         | Some key => <["Authorization" := "Bearer " +:+ key]> headers
         | None =>
           match when_set (oryUserId config) with
           | Some uid =>
               let headers := <["X-User-ID" := uid]> headers in
               let headers :=
                 match when_set (oryUserEmail config) with
                 | Some email => <["X-User-Email" := email]> headers
                 | None => headers
                 end in
               match when_set (oryUserRole config) with
               | Some role => <["X-User-Role" := role]> headers
               | None => headers
               end
           | None => headers
           end
         end
       end |}.

(** A parameter object, walked with [Object.entries]. *)
Abbreviation Params := (list (string * JsValue)).

(** The [forEach] over the entries of [params]: every entry whose value
    is neither [undefined] nor [null] is appended to [url.searchParams]
    with its value converted by [String]. *)
Definition append_entry (searchParams : list (string * string))
    (entry : string * JsValue) : list (string * string) :=
  let '(key, value) := entry in
  if defined value then (searchParams ++ [(key, ToString value)])%list
  else searchParams.

Definition append_params (params : Params)
    (searchParams : list (string * string)) : list (string * string) :=
  fold_left append_entry params searchParams.

Section Requests.
Context `{Platform}.

(** [response.json()] *)
Definition response_json (text : string) : Async Json :=
  match JSON_parse text with
  | Some value => ret value
  | None => throw (JSON_syntax_error text)
  end.

(** [get(endpoint, params)]. The URL is built from the base URL followed
    by the endpoint, which [new URL] is taken to accept, and the entries
    of [params] are appended to its search parameters; the request keeps
    both as they are handed to the [URL] object. *)
Definition get (self : OsintApiClient) (endpoint : string)
    (params : option Params) : Async Json :=
  let url := this_baseUrl self +:+ endpoint in
  let searchParams :=
    match params with
    | Some params => append_params params []
    | None => []
    end in
  let* (status, text) :=
    fetch {| req_method := GET;
             req_url := url;
             req_query := searchParams;
             req_headers := this_headers self;
             req_body := None |} in
  if negb (ok status) then
    throw ("API Error " +:+ pretty status +:+ ": " +:+ text)
  else response_json text.

(** [post(endpoint, body)]. The string made of the base URL and the
    endpoint goes to [fetch] as it is. *)
Definition post (self : OsintApiClient) (endpoint : string)
    (body : option Json) : Async Json :=
  let* (status, text) :=
    fetch {| req_method := POST;
             req_url := this_baseUrl self +:+ endpoint;
             req_query := [];
             req_headers := this_headers self;
             req_body :=
               match body with
               | Some value =>
                   if JSON_truthy value then Some (JSON_stringify value None)
                   else None
               | None => None
               end |} in
  if negb (ok status) then
    throw ("API Error " +:+ pretty status +:+ ": " +:+ text)
  else response_json text.

(** One method per remote endpoint, in the order of the class. A
    positional argument is interpolated into the path by a template
    literal; [params] is handed to [get] as it is. *)

Definition searchMessages (self : OsintApiClient) (params : Params)
  : Async Json :=
  get self "/api/messages" (Some params).

Definition getMessage (self : OsintApiClient) (messageId : JsValue)
  : Async Json :=
  get self ("/api/messages/" +:+ ToString messageId) None.

Definition getAdjacentMessages (self : OsintApiClient) (messageId : JsValue)
  : Async Json :=
  get self ("/api/messages/" +:+ ToString messageId +:+ "/adjacent") None.

Definition getMessageAlbum (self : OsintApiClient) (messageId : JsValue)
  : Async Json :=
  get self ("/api/messages/" +:+ ToString messageId +:+ "/album") None.

Definition getMessageNetwork (self : OsintApiClient)
    (messageId : JsValue) (params : option Params)
  : Async Json :=
  get self ("/api/messages/" +:+ ToString messageId +:+ "/network") params.

Definition getMessageTimeline (self : OsintApiClient)
    (messageId : JsValue) (params : option Params)
  : Async Json :=
  get self ("/api/messages/" +:+ ToString messageId +:+ "/timeline") params.

Definition semanticSearch (self : OsintApiClient) (params : Params)
  : Async Json :=
  get self "/api/semantic/search" (Some params).

Definition findSimilarMessages (self : OsintApiClient)
    (messageId : JsValue) (params : option Params)
  : Async Json :=
  get self ("/api/semantic/similar/" +:+ ToString messageId) params.

Definition getTags (self : OsintApiClient) (params : option Params)
  : Async Json :=
  get self "/api/semantic/tags" params.

Definition searchByTags (self : OsintApiClient) (params : Params)
  : Async Json :=
  get self "/api/semantic/tags/search" (Some params).

Definition unifiedSearch (self : OsintApiClient) (params : Params)
  : Async Json :=
  get self "/api/search" (Some params).

Definition listChannels (self : OsintApiClient) (params : option Params)
  : Async Json :=
  get self "/api/channels" params.

Definition getChannel (self : OsintApiClient) (channelId : JsValue)
  : Async Json :=
  get self ("/api/channels/" +:+ ToString channelId) None.

Definition getChannelStats (self : OsintApiClient) (channelId : JsValue)
  : Async Json :=
  get self ("/api/channels/" +:+ ToString channelId +:+ "/stats") None.

Definition getChannelNetwork (self : OsintApiClient)
    (channelId : JsValue) (params : option Params)
  : Async Json :=
  get self ("/api/channels/" +:+ ToString channelId +:+ "/network") params.

Definition getMessageSocialGraph (self : OsintApiClient)
    (messageId : JsValue) (params : option Params)
  : Async Json :=
  get self ("/api/social-graph/messages/" +:+ ToString messageId) params.

Definition getChannelInfluence (self : OsintApiClient) (channelId : JsValue)
  : Async Json :=
  get self
    ("/api/social-graph/channels/" +:+ ToString channelId
     +:+ "/influence") None.

Definition getInfluenceNetwork (self : OsintApiClient) (params : option Params)
  : Async Json :=
  get self "/api/social-graph/influence-network" params.

Definition getEngagementTimeline (self : OsintApiClient) (messageId : JsValue)
  : Async Json :=
  get self
    ("/api/social-graph/messages/" +:+ ToString messageId
     +:+ "/engagement-timeline") None.

Definition getMessageComments (self : OsintApiClient)
    (messageId : JsValue) (params : option Params)
  : Async Json :=
  get self
    ("/api/social-graph/messages/" +:+ ToString messageId
     +:+ "/comments") params.

Definition getTopForwarded (self : OsintApiClient) (params : option Params)
  : Async Json :=
  get self "/api/social-graph/virality/top-forwarded" params.

Definition getTopInfluencers (self : OsintApiClient) (params : option Params)
  : Async Json :=
  get self "/api/social-graph/influencers" params.

Definition searchEntities (self : OsintApiClient) (params : Params)
  : Async Json :=
  get self "/api/entities/search" (Some params).

Definition getEntity (self : OsintApiClient)
    (source : JsValue) (entityId : JsValue) (params : option Params)
  : Async Json :=
  get self
    ("/api/entities/" +:+ ToString source +:+ "/" +:+ ToString entityId) params.

Definition getEntityRelationships (self : OsintApiClient)
    (source : JsValue) (entityId : JsValue) (params : option Params)
  : Async Json :=
  get self
    ("/api/entities/" +:+ ToString source +:+ "/" +:+ ToString entityId
     +:+ "/relationships") params.

Definition getEntityMessages (self : OsintApiClient)
    (source : JsValue) (entityId : JsValue) (params : option Params)
  : Async Json :=
  get self
    ("/api/entities/" +:+ ToString source +:+ "/" +:+ ToString entityId
     +:+ "/messages") params.

Definition listEvents (self : OsintApiClient) (params : option Params)
  : Async Json :=
  get self "/api/events" params.

Definition getEventStats (self : OsintApiClient)
  : Async Json :=
  get self "/api/events/stats" None.

Definition getEvent (self : OsintApiClient)
    (eventId : JsValue) (params : option Params)
  : Async Json :=
  get self ("/api/events/" +:+ ToString eventId) params.

Definition getEventTimeline (self : OsintApiClient) (eventId : JsValue)
  : Async Json :=
  get self ("/api/events/" +:+ ToString eventId +:+ "/timeline") None.

Definition getEventsForMessage (self : OsintApiClient) (messageId : JsValue)
  : Async Json :=
  get self ("/api/events/message/" +:+ ToString messageId) None.

Definition getTimelineStats (self : OsintApiClient) (params : option Params)
  : Async Json :=
  get self "/api/analytics/timeline" params.

Definition getTopicDistribution (self : OsintApiClient) (params : option Params)
  : Async Json :=
  get self "/api/analytics/distribution/topics" params.

Definition getLanguageDistribution (self : OsintApiClient)
    (params : option Params)
  : Async Json :=
  get self "/api/analytics/distribution/languages" params.

Definition getChannelAnalytics (self : OsintApiClient) (params : option Params)
  : Async Json :=
  get self "/api/analytics/channels/activity" params.

Definition getHeatmap (self : OsintApiClient) (params : option Params)
  : Async Json :=
  get self "/api/analytics/heatmap" params.

Definition getEntityAnalytics (self : OsintApiClient) (params : option Params)
  : Async Json :=
  get self "/api/analytics/entities" params.

Definition getMediaAnalytics (self : OsintApiClient)
  : Async Json :=
  get self "/api/analytics/media" None.

Definition getMapMessages (self : OsintApiClient) (params : option Params)
  : Async Json :=
  get self "/api/map/messages" params.

Definition getMapClusters (self : OsintApiClient) (params : option Params)
  : Async Json :=
  get self "/api/map/clusters" params.

Definition getMapEvents (self : OsintApiClient) (params : option Params)
  : Async Json :=
  get self "/api/map/events" params.

Definition getMapHeatmap (self : OsintApiClient) (params : option Params)
  : Async Json :=
  get self "/api/map/heatmap" params.

Definition suggestLocations (self : OsintApiClient) (params : Params)
  : Async Json :=
  get self "/api/map/locations/suggest" (Some params).

Definition reverseGeocode (self : OsintApiClient) (params : Params)
  : Async Json :=
  get self "/api/map/locations/reverse" (Some params).

Definition getUnifiedStream (self : OsintApiClient) (params : option Params)
  : Async Json :=
  get self "/api/stream/unified" params.

Definition validateMessage (self : OsintApiClient) (messageId : JsValue)
  : Async Json :=
  get self ("/api/validation/messages/" +:+ ToString messageId) None.

Definition getCorrelations (self : OsintApiClient) (messageId : JsValue)
  : Async Json :=
  get self
    ("/api/validation/messages/" +:+ ToString messageId
     +:+ "/correlations") None.

Definition getComment (self : OsintApiClient) (commentId : JsValue)
  : Async Json :=
  get self ("/api/comments/" +:+ ToString commentId) None.


Definition getMediaGallery (self : OsintApiClient) (params : option Params)
  : Async Json :=
  get self "/api/media/gallery" params.

Definition getAdminDashboard (self : OsintApiClient)
  : Async Json :=
  get self "/api/admin/dashboard" None.

Definition getAdminStatsOverview (self : OsintApiClient)
  : Async Json :=
  get self "/api/admin/stats/overview" None.

Definition getAdminStatsQuality (self : OsintApiClient)
  : Async Json :=
  get self "/api/admin/stats/quality" None.

Definition getAdminStatsProcessing (self : OsintApiClient)
    (params : option Params)
  : Async Json :=
  get self "/api/admin/stats/processing" params.

Definition getAdminStatsStorage (self : OsintApiClient)
  : Async Json :=
  get self "/api/admin/stats/storage" None.

Definition getAdminWorkersStats (self : OsintApiClient)
  : Async Json :=
  get self "/api/admin/system/workers/stats" None.

Definition getAdminEnrichmentTasks (self : OsintApiClient)
  : Async Json :=
  get self "/api/admin/system/enrichment/tasks" None.

Definition getAdminCacheStats (self : OsintApiClient)
  : Async Json :=
  get self "/api/admin/system/cache/stats" None.

Definition getAdminAuditStats (self : OsintApiClient)
  : Async Json :=
  get self "/api/admin/system/audit/stats" None.

Definition getAdminSpamStats (self : OsintApiClient)
  : Async Json :=
  get self "/api/admin/spam/stats" None.

Definition getAdminChannelsStats (self : OsintApiClient)
  : Async Json :=
  get self "/api/admin/channels/stats" None.

Definition getAdminEntitiesStats (self : OsintApiClient)
  : Async Json :=
  get self "/api/admin/entities/stats" None.

Definition getAdminFeedsStats (self : OsintApiClient)
  : Async Json :=
  get self "/api/admin/feeds/rss/stats" None.

Definition getAdminPromptsStats (self : OsintApiClient)
  : Async Json :=
  get self "/api/admin/prompts/stats" None.

Definition getAdminCommentsStats (self : OsintApiClient)
  : Async Json :=
  get self "/api/admin/comments/stats" None.

Definition getAdminViralPosts (self : OsintApiClient)
  : Async Json :=
  get self "/api/admin/comments/viral" None.

Definition getHealth (self : OsintApiClient)
  : Async Json :=
  get self "/health" None.

Definition getHardwareConfig (self : OsintApiClient)
  : Async Json :=
  get self "/api/health/hardware" None.

Definition getSystemStatus (self : OsintApiClient)
  : Async Json :=
  get self "/api/system/status" None.

Definition getMetricsOverview (self : OsintApiClient)
  : Async Json :=
  get self "/api/metrics/overview" None.

Definition getMetricsLLM (self : OsintApiClient)
  : Async Json :=
  get self "/api/metrics/llm" None.

Definition getMetricsPipeline (self : OsintApiClient)
  : Async Json :=
  get self "/api/metrics/pipeline" None.

Definition getMetricsServices (self : OsintApiClient)
  : Async Json :=
  get self "/api/metrics/services" None.

Definition listModels (self : OsintApiClient)
  : Async Json :=
  get self "/api/models" None.

Definition getModelHealth (self : OsintApiClient)
  : Async Json :=
  get self "/api/models/health" None.

End Requests.

End ApiClient.

(** ** The MCP SDK types that the server uses *)

Module Mcp.

(** A property of an input schema: [{ type: 'string' }],
    [{ type: 'number' }], [{ type: 'boolean' }] or
    [{ type: 'string', enum: values }]. The descriptions, which are prose
    for the reader of the catalog, are left out. *)
Inductive Property : Type :=
| PString
| PNumber
| PBoolean
| PEnum (values : list string).

(** A tool descriptor; [inputSchema] is always of type ['object'] and is
    given by its properties and its required names. *)
Record Tool : Type := {
  name : string;
  properties : list (string * Property);
  required : list string;
}.

(** The request of a tool call: [request.params]. *)
Record CallToolRequest : Type := {
  params_name : string;
  params_arguments : Bag;
}.

Record ContentBlock : Type := {
  block_type : string;
  block_text : string;
}.

(** The result of a tool call; [isError] is absent on success. *)
Record CallToolResult : Type := {
  content : list ContentBlock;
  isError : option bool;
}.

(** The request schemas of the MCP SDK for tools, resources and prompts.
    index.ts imports the two for tools. *)
Inductive RequestSchema : Type :=
| ListToolsRequestSchema
| CallToolRequestSchema
| ListResourcesRequestSchema
| ReadResourceRequestSchema
| ListPromptsRequestSchema
| GetPromptRequestSchema.

Definition RequestSchema_eqb (a b : RequestSchema) : bool :=
  match a, b with
  | ListToolsRequestSchema, ListToolsRequestSchema
  | CallToolRequestSchema, CallToolRequestSchema
  | ListResourcesRequestSchema, ListResourcesRequestSchema
  | ReadResourceRequestSchema, ReadResourceRequestSchema
  | ListPromptsRequestSchema, ListPromptsRequestSchema
  | GetPromptRequestSchema, GetPromptRequestSchema => true
  | _, _ => false
  end.

Inductive Handler : Type :=
| ListToolsHandler (h : Async (list Tool))
| CallToolHandler (h : CallToolRequest → Async CallToolResult).

(** The [Server] object of the SDK, as far as index.ts builds it: its
    name and version, the capabilities it declares (the keys of the
    [capabilities] object) and the request handlers set on it. *)
Record Server : Type := {
  server_name : string;
  server_version : string;
  capabilities : list string;
  handlers : list (RequestSchema * Handler);
}.

Definition new_Server (server_name server_version : string)
    (capabilities : list string) : Server :=
  {| server_name := server_name;
     server_version := server_version;
     capabilities := capabilities;
     handlers := [] |}.

(** [server.setRequestHandler(schema, handler)]: the handler of a schema
    is set, replacing an earlier one. *)
Definition setRequestHandler (schema : RequestSchema) (handler : Handler)
    (server : Server) : Server :=
  {| server_name := server_name server;
     server_version := server_version server;
     capabilities := capabilities server;
     handlers :=
       (filter (fun e => negb (RequestSchema_eqb (fst e) schema))
               (handlers server) ++ [(schema, handler)])%list |}.

Definition handler_of (server : Server) (schema : RequestSchema)
  : option Handler :=
  snd <$> find (fun e => RequestSchema_eqb (fst e) schema) (handlers server).

End Mcp.

(** ** The server (index.ts) *)

Module Index.
Import ApiClient Mcp.

(** The configuration read from [process.env]. *)
Record Env : Type := {
  OSINT_API_URL : option string;
  OSINT_API_KEY : option string;
  OSINT_JWT_TOKEN : option string;
}.

(** Tool definitions, organized by category. *)
Definition tools : list Tool := [
  {| name := "search_messages";
     properties :=
       [("query", PString); ("channel_id", PNumber); ("days", PNumber);
        ("date_from", PString); ("date_to", PString);
        ("importance_level", PEnum ["high"; "medium"; "low"]);
        ("topic", PString); ("has_media", PBoolean);
        ("media_type", PEnum ["photo"; "video"; "document"]);
        ("language", PString); ("min_views", PNumber);
        ("min_forwards", PNumber); ("channel_folder", PString);
        ("page", PNumber); ("page_size", PNumber)];
     required := [] |};
  {| name := "get_message";
     properties :=
       [("message_id", PNumber)];
     required := ["message_id"] |};
  {| name := "get_message_album";
     properties :=
       [("message_id", PNumber)];
     required := ["message_id"] |};
  {| name := "get_message_network";
     properties :=
       [("message_id", PNumber); ("include_similar", PBoolean);
        ("similarity_threshold", PNumber); ("max_similar", PNumber)];
     required := ["message_id"] |};
  {| name := "get_message_timeline";
     properties :=
       [("message_id", PNumber); ("before_count", PNumber);
        ("after_count", PNumber); ("same_channel_only", PBoolean);
        ("use_semantic", PBoolean); ("use_events", PBoolean)];
     required := ["message_id"] |};
  {| name := "semantic_search";
     properties :=
       [("query", PString); ("similarity_threshold", PNumber);
        ("limit", PNumber); ("channel_id", PNumber);
        ("importance_level", PEnum ["high"; "medium"; "low"]);
        ("days", PNumber)];
     required := ["query"] |};
  {| name := "find_similar_messages";
     properties :=
       [("message_id", PNumber); ("similarity_threshold", PNumber);
        ("limit", PNumber)];
     required := ["message_id"] |};
  {| name := "get_tags";
     properties :=
       [("tag_type", PString); ("limit", PNumber)];
     required := [] |};
  {| name := "search_by_tags";
     properties :=
       [("tags", PString); ("match_all", PBoolean); ("limit", PNumber)];
     required := ["tags"] |};
  {| name := "unified_search";
     properties :=
       [("query", PString); ("mode", PEnum ["text"; "semantic"]);
        ("types", PString); ("limit_per_type", PNumber); ("days", PNumber);
        ("location", PString); ("lat", PNumber); ("lng", PNumber);
        ("radius_km", PNumber)];
     required := ["query"] |};
  {| name := "list_channels";
     properties :=
       [("active_only", PBoolean);
        ("rule", PEnum ["archive_all"; "selective_archive"; "test"; "staging"]);
        ("folder", PString); ("verified_only", PBoolean); ("limit", PNumber)];
     required := [] |};
  {| name := "get_channel";
     properties :=
       [("channel_id", PNumber)];
     required := ["channel_id"] |};
  {| name := "get_channel_stats";
     properties :=
       [("channel_id", PNumber)];
     required := ["channel_id"] |};
  {| name := "get_channel_network";
     properties :=
       [("channel_id", PNumber); ("similarity_threshold", PNumber);
        ("max_messages", PNumber); ("time_window", PString);
        ("include_clusters", PBoolean)];
     required := ["channel_id"] |};
  {| name := "get_message_social_graph";
     properties :=
       [("message_id", PNumber); ("include_forwards", PBoolean);
        ("include_replies", PBoolean); ("max_depth", PNumber);
        ("max_comments", PNumber)];
     required := ["message_id"] |};
  {| name := "get_channel_influence";
     properties :=
       [("channel_id", PNumber)];
     required := ["channel_id"] |};
  {| name := "get_influence_network";
     properties :=
       [("min_forwards", PNumber); ("days", PNumber); ("limit", PNumber)];
     required := [] |};
  {| name := "get_engagement_timeline";
     properties :=
       [("message_id", PNumber)];
     required := ["message_id"] |};
  {| name := "get_message_comments";
     properties :=
       [("message_id", PNumber); ("limit", PNumber); ("offset", PNumber)];
     required := ["message_id"] |};
  {| name := "get_top_forwarded";
     properties :=
       [("days", PNumber); ("limit", PNumber)];
     required := [] |};
  {| name := "get_top_influencers";
     properties :=
       [("days", PNumber); ("limit", PNumber)];
     required := [] |};
  {| name := "search_entities";
     properties :=
       [("query", PString);
        ("source", PEnum ["curated"; "opensanctions"; "all"]);
        ("entity_type", PString); ("limit", PNumber)];
     required := ["query"] |};
  {| name := "get_entity";
     properties :=
       [("source", PString); ("entity_id", PString);
        ("include_linked", PBoolean)];
     required := ["source"; "entity_id"] |};
  {| name := "get_entity_relationships";
     properties :=
       [("source", PString); ("entity_id", PString); ("refresh", PBoolean)];
     required := ["source"; "entity_id"] |};
  {| name := "get_entity_mentions";
     properties :=
       [("source", PString); ("entity_id", PString); ("limit", PNumber)];
     required := ["source"; "entity_id"] |};
  {| name := "list_events";
     properties :=
       [("page", PNumber); ("page_size", PNumber);
        ("tab", PEnum ["active"; "major"; "archived"; "all"]);
        ("tier_status", PEnum ["rumor"; "unconfirmed"; "confirmed"; "verified"]);
        ("event_type", PString); ("search", PString);
        ("search_mode", PEnum ["text"; "semantic"])];
     required := [] |};
  {| name := "get_event_stats";
     properties :=
       [];
     required := [] |};
  {| name := "get_event";
     properties :=
       [("event_id", PNumber); ("include_messages", PBoolean);
        ("include_sources", PBoolean); ("message_limit", PNumber)];
     required := ["event_id"] |};
  {| name := "get_event_timeline";
     properties :=
       [("event_id", PNumber)];
     required := ["event_id"] |};
  {| name := "get_events_for_message";
     properties :=
       [("message_id", PNumber)];
     required := ["message_id"] |};
  {| name := "get_timeline_stats";
     properties :=
       [("granularity", PEnum ["hour"; "day"; "week"; "month"; "year"]);
        ("channel_id", PNumber); ("topic", PString);
        ("importance_level", PEnum ["high"; "medium"; "low"]);
        ("days", PNumber)];
     required := [] |};
  {| name := "get_topic_distribution";
     properties :=
       [("days", PNumber); ("limit", PNumber)];
     required := [] |};
  {| name := "get_language_distribution";
     properties :=
       [("days", PNumber)];
     required := [] |};
  {| name := "get_channel_analytics";
     properties :=
       [("days", PNumber); ("limit", PNumber)];
     required := [] |};
  {| name := "get_activity_heatmap";
     properties :=
       [("days", PNumber)];
     required := [] |};
  {| name := "get_entity_analytics";
     properties :=
       [("days", PNumber); ("limit", PNumber)];
     required := [] |};
  {| name := "get_media_analytics";
     properties :=
       [];
     required := [] |};
  {| name := "get_map_messages";
     properties :=
       [("bounds", PString); ("zoom", PNumber); ("cluster", PBoolean);
        ("cluster_grid_size", PNumber); ("days", PNumber);
        ("include_confidence", PBoolean)];
     required := [] |};
  {| name := "get_map_clusters";
     properties :=
       [("bounds", PString);
        ("tier_status", PEnum ["rumor"; "unconfirmed"; "confirmed"; "verified"]);
        ("days", PNumber)];
     required := [] |};
  {| name := "get_map_events";
     properties :=
       [("bounds", PString)];
     required := [] |};
  {| name := "get_map_heatmap";
     properties :=
       [("zoom", PNumber); ("bounds", PString); ("grid_size", PNumber)];
     required := [] |};
  {| name := "suggest_locations";
     properties :=
       [("query", PString); ("limit", PNumber)];
     required := ["query"] |};
  {| name := "reverse_geocode";
     properties :=
       [("lat", PNumber); ("lng", PNumber)];
     required := ["lat"; "lng"] |};
  {| name := "get_unified_stream";
     properties :=
       [("limit", PNumber); ("sources", PString); ("categories", PString);
        ("importance_level", PEnum ["high"; "medium"; "low"]);
        ("hours", PNumber)];
     required := [] |};
  {| name := "validate_message";
     properties :=
       [("message_id", PNumber)];
     required := ["message_id"] |};
  {| name := "get_message_correlations";
     properties :=
       [("message_id", PNumber)];
     required := ["message_id"] |};
  {| name := "get_media_gallery";
     properties :=
       [("channel_id", PNumber);
        ("media_type", PEnum ["photo"; "video"; "document"]);
        ("date_from", PString); ("date_to", PString); ("limit", PNumber);
        ("offset", PNumber)];
     required := [] |};
  {| name := "get_platform_dashboard";
     properties :=
       [];
     required := [] |};
  {| name := "get_platform_stats_overview";
     properties :=
       [];
     required := [] |};
  {| name := "get_data_quality_stats";
     properties :=
       [];
     required := [] |};
  {| name := "get_processing_stats";
     properties :=
       [("hours", PNumber)];
     required := [] |};
  {| name := "get_storage_stats";
     properties :=
       [];
     required := [] |};
  {| name := "get_worker_stats";
     properties :=
       [];
     required := [] |};
  {| name := "get_enrichment_tasks";
     properties :=
       [];
     required := [] |};
  {| name := "get_cache_stats";
     properties :=
       [];
     required := [] |};
  {| name := "get_audit_stats";
     properties :=
       [];
     required := [] |};
  {| name := "get_spam_stats";
     properties :=
       [];
     required := [] |};
  {| name := "get_channels_admin_stats";
     properties :=
       [];
     required := [] |};
  {| name := "get_entities_admin_stats";
     properties :=
       [];
     required := [] |};
  {| name := "get_rss_feeds_stats";
     properties :=
       [];
     required := [] |};
  {| name := "get_llm_prompts_stats";
     properties :=
       [];
     required := [] |};
  {| name := "get_viral_posts";
     properties :=
       [];
     required := [] |};
  {| name := "get_system_health";
     properties :=
       [];
     required := [] |};
  {| name := "get_hardware_config";
     properties :=
       [];
     required := [] |};
  {| name := "get_system_status";
     properties :=
       [];
     required := [] |};
  {| name := "get_metrics_overview";
     properties :=
       [];
     required := [] |};
  {| name := "get_metrics_llm";
     properties :=
       [];
     required := [] |};
  {| name := "get_metrics_pipeline";
     properties :=
       [];
     required := [] |};
  {| name := "get_metrics_services";
     properties :=
       [];
     required := [] |};
  {| name := "list_llm_models";
     properties :=
       [];
     required := [] |};
  {| name := "get_llm_model_health";
     properties :=
       [];
     required := [] |}
].

Section Process.
Context `{Platform} (env : Env).

Definition API_BASE_URL : string :=
  match when_set (OSINT_API_URL env) with
  | Some url => url
  | None => "http://localhost:8000"
  end.
Definition API_KEY : option string := OSINT_API_KEY env.
Definition JWT_TOKEN : option string := OSINT_JWT_TOKEN env.

Definition apiClient : OsintApiClient :=
  new_OsintApiClient
    {| baseUrl := API_BASE_URL;
       apiKey := API_KEY;
       jwtToken := JWT_TOKEN;
       oryUserId := None;
       oryUserEmail := None;
       oryUserRole := None |}.

(** The cases of the [switch (name)] of [handleToolCall], in order: the
    label and what the case returns. *)
Definition handleToolCall_cases : list (string * (Bag → Async Json)) := [
  ("search_messages", fun args =>
     searchMessages apiClient
        [("q", args.["query"]); ("channel_id", args.["channel_id"]);
         ("days", args.["days"]); ("date_from", args.["date_from"]);
         ("date_to", args.["date_to"]);
         ("importance_level", args.["importance_level"]);
         ("topic", args.["topic"]); ("has_media", args.["has_media"]);
         ("media_type", args.["media_type"]);
         ("language", args.["language"]); ("min_views", args.["min_views"]);
         ("min_forwards", args.["min_forwards"]);
         ("channel_folder", args.["channel_folder"]);
         ("page", args.["page"]); ("page_size", args.["page_size"])]);
  ("get_message", fun args =>
     getMessage apiClient args.["message_id"]);
  ("get_message_album", fun args =>
     getMessageAlbum apiClient args.["message_id"]);
  ("get_message_network", fun args =>
     getMessageNetwork apiClient args.["message_id"] (Some
        [("include_similar", args.["include_similar"]);
         ("similarity_threshold", args.["similarity_threshold"]);
         ("max_similar", args.["max_similar"])]));
  ("get_message_timeline", fun args =>
     getMessageTimeline apiClient args.["message_id"] (Some
        [("before_count", args.["before_count"]);
         ("after_count", args.["after_count"]);
         ("same_channel_only", args.["same_channel_only"]);
         ("use_semantic", args.["use_semantic"]);
         ("use_events", args.["use_events"]);
         ("similarity_threshold", args.["similarity_threshold"])]));
  ("semantic_search", fun args =>
     semanticSearch apiClient
        [("q", args.["query"]);
         ("similarity_threshold", args.["similarity_threshold"]);
         ("limit", args.["limit"]); ("channel_id", args.["channel_id"]);
         ("importance_level", args.["importance_level"]);
         ("days", args.["days"])]);
  ("find_similar_messages", fun args =>
     findSimilarMessages apiClient args.["message_id"] (Some
        [("similarity_threshold", args.["similarity_threshold"]);
         ("limit", args.["limit"])]));
  ("get_tags", fun args =>
     getTags apiClient (Some
        [("tag_type", args.["tag_type"]); ("limit", args.["limit"])]));
  ("search_by_tags", fun args =>
     searchByTags apiClient
        [("tags", args.["tags"]); ("match_all", args.["match_all"]);
         ("limit", args.["limit"])]);
  ("unified_search", fun args =>
     unifiedSearch apiClient
        [("q", args.["query"]); ("mode", args.["mode"]);
         ("types", args.["types"]);
         ("limit_per_type", args.["limit_per_type"]);
         ("days", args.["days"]); ("location", args.["location"]);
         ("lat", args.["lat"]); ("lng", args.["lng"]);
         ("radius_km", args.["radius_km"])]);
  ("list_channels", fun args =>
     listChannels apiClient (Some
        [("active_only", args.["active_only"]); ("rule", args.["rule"]);
         ("folder", args.["folder"]);
         ("verified_only", args.["verified_only"]);
         ("limit", args.["limit"])]));
  ("get_channel", fun args =>
     getChannel apiClient args.["channel_id"]);
  ("get_channel_stats", fun args =>
     getChannelStats apiClient args.["channel_id"]);
  ("get_channel_network", fun args =>
     getChannelNetwork apiClient args.["channel_id"] (Some
        [("similarity_threshold", args.["similarity_threshold"]);
         ("max_messages", args.["max_messages"]);
         ("time_window", args.["time_window"]);
         ("include_clusters", args.["include_clusters"])]));
  ("get_message_social_graph", fun args =>
     getMessageSocialGraph apiClient args.["message_id"] (Some
        [("include_forwards", args.["include_forwards"]);
         ("include_replies", args.["include_replies"]);
         ("max_depth", args.["max_depth"]);
         ("max_comments", args.["max_comments"])]));
  ("get_channel_influence", fun args =>
     getChannelInfluence apiClient args.["channel_id"]);
  ("get_influence_network", fun args =>
     getInfluenceNetwork apiClient (Some
        [("min_forwards", args.["min_forwards"]); ("days", args.["days"]);
         ("limit", args.["limit"])]));
  ("get_engagement_timeline", fun args =>
     getEngagementTimeline apiClient args.["message_id"]);
  ("get_message_comments", fun args =>
     getMessageComments apiClient args.["message_id"] (Some
        [("limit", args.["limit"]); ("offset", args.["offset"])]));
  ("get_top_forwarded", fun args =>
     getTopForwarded apiClient (Some
        [("days", args.["days"]); ("limit", args.["limit"])]));
  ("get_top_influencers", fun args =>
     getTopInfluencers apiClient (Some
        [("days", args.["days"]); ("limit", args.["limit"])]));
  ("search_entities", fun args =>
     searchEntities apiClient
        [("q", args.["query"]); ("source", args.["source"]);
         ("entity_type", args.["entity_type"]); ("limit", args.["limit"])]);
  ("get_entity", fun args =>
     getEntity apiClient args.["source"] args.["entity_id"] (Some
        [("include_linked", args.["include_linked"])]));
  ("get_entity_relationships", fun args =>
     getEntityRelationships apiClient args.["source"] args.["entity_id"] (Some
        [("refresh", args.["refresh"])]));
  ("get_entity_mentions", fun args =>
     getEntityMessages apiClient args.["source"] args.["entity_id"] (Some
        [("limit", args.["limit"])]));
  ("list_events", fun args =>
     listEvents apiClient (Some
        [("page", args.["page"]); ("page_size", args.["page_size"]);
         ("tab", args.["tab"]); ("tier_status", args.["tier_status"]);
         ("event_type", args.["event_type"]); ("search", args.["search"]);
         ("search_mode", args.["search_mode"])]));
  ("get_event_stats", fun args =>
     getEventStats apiClient);
  ("get_event", fun args =>
     getEvent apiClient args.["event_id"] (Some
        [("include_messages", args.["include_messages"]);
         ("include_sources", args.["include_sources"]);
         ("message_limit", args.["message_limit"])]));
  ("get_event_timeline", fun args =>
     getEventTimeline apiClient args.["event_id"]);
  ("get_events_for_message", fun args =>
     getEventsForMessage apiClient args.["message_id"]);
  ("get_timeline_stats", fun args =>
     getTimelineStats apiClient (Some
        [("granularity", args.["granularity"]);
         ("channel_id", args.["channel_id"]); ("topic", args.["topic"]);
         ("importance_level", args.["importance_level"]);
         ("days", args.["days"])]));
  ("get_topic_distribution", fun args =>
     getTopicDistribution apiClient (Some
        [("days", args.["days"]); ("limit", args.["limit"])]));
  ("get_language_distribution", fun args =>
     getLanguageDistribution apiClient (Some
        [("days", args.["days"])]));
  ("get_channel_analytics", fun args =>
     getChannelAnalytics apiClient (Some
        [("days", args.["days"]); ("limit", args.["limit"])]));
  ("get_activity_heatmap", fun args =>
     getHeatmap apiClient (Some
        [("days", args.["days"])]));
  ("get_entity_analytics", fun args =>
     getEntityAnalytics apiClient (Some
        [("days", args.["days"]); ("limit", args.["limit"])]));
  ("get_media_analytics", fun args =>
     getMediaAnalytics apiClient);
  ("get_map_messages", fun args =>
     getMapMessages apiClient (Some
        [("bounds", args.["bounds"]); ("zoom", args.["zoom"]);
         ("cluster", args.["cluster"]);
         ("cluster_grid_size", args.["cluster_grid_size"]);
         ("days", args.["days"]);
         ("include_confidence", args.["include_confidence"])]));
  ("get_map_clusters", fun args =>
     getMapClusters apiClient (Some
        [("bounds", args.["bounds"]); ("tier_status", args.["tier_status"]);
         ("days", args.["days"])]));
  ("get_map_events", fun args =>
     getMapEvents apiClient (Some
        [("bounds", args.["bounds"])]));
  ("get_map_heatmap", fun args =>
     getMapHeatmap apiClient (Some
        [("zoom", args.["zoom"]); ("bounds", args.["bounds"]);
         ("grid_size", args.["grid_size"])]));
  ("suggest_locations", fun args =>
     suggestLocations apiClient
        [("q", args.["query"]); ("limit", args.["limit"])]);
  ("reverse_geocode", fun args =>
     reverseGeocode apiClient
        [("lat", args.["lat"]); ("lng", args.["lng"])]);
  ("get_unified_stream", fun args =>
     getUnifiedStream apiClient (Some
        [("limit", args.["limit"]); ("sources", args.["sources"]);
         ("categories", args.["categories"]);
         ("importance_level", args.["importance_level"]);
         ("hours", args.["hours"])]));
  ("validate_message", fun args =>
     validateMessage apiClient args.["message_id"]);
  ("get_message_correlations", fun args =>
     getCorrelations apiClient args.["message_id"]);
  ("get_media_gallery", fun args =>
     getMediaGallery apiClient (Some
        [("channel_id", args.["channel_id"]);
         ("media_type", args.["media_type"]);
         ("date_from", args.["date_from"]); ("date_to", args.["date_to"]);
         ("limit", args.["limit"]); ("offset", args.["offset"])]));
  ("get_platform_dashboard", fun args =>
     getAdminDashboard apiClient);
  ("get_platform_stats_overview", fun args =>
     getAdminStatsOverview apiClient);
  ("get_data_quality_stats", fun args =>
     getAdminStatsQuality apiClient);
  ("get_processing_stats", fun args =>
     getAdminStatsProcessing apiClient (Some
        [("hours", args.["hours"])]));
  ("get_storage_stats", fun args =>
     getAdminStatsStorage apiClient);
  ("get_worker_stats", fun args =>
     getAdminWorkersStats apiClient);
  ("get_enrichment_tasks", fun args =>
     getAdminEnrichmentTasks apiClient);
  ("get_cache_stats", fun args =>
     getAdminCacheStats apiClient);
  ("get_audit_stats", fun args =>
     getAdminAuditStats apiClient);
  ("get_spam_stats", fun args =>
     getAdminSpamStats apiClient);
  ("get_channels_admin_stats", fun args =>
     getAdminChannelsStats apiClient);
  ("get_entities_admin_stats", fun args =>
     getAdminEntitiesStats apiClient);
  ("get_rss_feeds_stats", fun args =>
     getAdminFeedsStats apiClient);
  ("get_llm_prompts_stats", fun args =>
     getAdminPromptsStats apiClient);
  ("get_viral_posts", fun args =>
     getAdminViralPosts apiClient);
  ("get_system_health", fun args =>
     getHealth apiClient);
  ("get_hardware_config", fun args =>
     getHardwareConfig apiClient);
  ("get_system_status", fun args =>
     getSystemStatus apiClient);
  ("get_metrics_overview", fun args =>
     getMetricsOverview apiClient);
  ("get_metrics_llm", fun args =>
     getMetricsLLM apiClient);
  ("get_metrics_pipeline", fun args =>
     getMetricsPipeline apiClient);
  ("get_metrics_services", fun args =>
     getMetricsServices apiClient);
  ("list_llm_models", fun args =>
     listModels apiClient);
  ("get_llm_model_health", fun args =>
     getModelHealth apiClient)
].

Definition handleToolCall (name : string) (args : Bag) : Async Json :=
  switch name handleToolCall_cases
    (fun _ => throw ("Unknown tool: " +:+ name)) args.

(** The handler of [CallToolRequestSchema], for a request that has its
    [arguments] member. *)
Definition callTool (request : CallToolRequest) : Async CallToolResult :=
  let name := params_name request in
  let args := params_arguments request in
  try_catch
    (let* result := handleToolCall name args in
     ret {| content :=
              [{| block_type := "text";
                  block_text := JSON_stringify result (Some 2) |}];
            isError := None |})
    (fun errorMessage =>
     ret {| content :=
              [{| block_type := "text";
                  block_text := "Error: " +:+ errorMessage |}];
            isError := Some true |}).

Definition server : Server :=
  setRequestHandler CallToolRequestSchema (CallToolHandler callTool)
    (setRequestHandler ListToolsRequestSchema (ListToolsHandler (ret tools))
       (new_Server "osint-mcp-server" "2.0.0" ["tools"])).

End Process.

End Index.

(** ** The prompts (prompts.ts) *)

Module Prompts.

(** A prompt descriptor: its name and, for each argument, its name and
    whether it is required. The descriptions are left out. *)
Record Prompt : Type := {
  prompt_name : string;
  arguments : list (string * bool);
}.

Definition prompts : list Prompt := [
  {| prompt_name := "investigate_entity";
     arguments := [("entity_name", true); ("entity_type", false)] |};
  {| prompt_name := "validate_claim";
     arguments := [("message_id", true)] |};
  {| prompt_name := "track_event";
     arguments := [("event_id", false); ("search_query", false)] |};
  {| prompt_name := "analyze_channel";
     arguments := [("channel_id", true)] |};
  {| prompt_name := "trace_narrative";
     arguments := [("message_id", false); ("search_query", false)] |};
  {| prompt_name := "daily_briefing";
     arguments := [("hours", false); ("focus_topic", false)] |};
  {| prompt_name := "geographic_sitrep";
     arguments := [("location", true); ("days", false)] |};
  {| prompt_name := "platform_health_check";
     arguments := [] |};
  {| prompt_name := "find_viral_content";
     arguments := [("days", false); ("topic", false)] |};
  {| prompt_name := "discover_connections";
     arguments := [("start_entity", false); ("start_channel", false)] |}
].

(** The template of each case of [getPromptContent]; [args] is a
    [Record<string, string>]. *)

Definition investigate_entity (args : gmap string string) : string :=
  "# Entity Investigation: " +:+ interpolate (args !! "entity_name") +:+ "

## Investigation Workflow

I'll investigate " +:+ dq +:+ interpolate (args !! "entity_name") +:+ dq +:+ " using these steps:

1. **Search Entities** - Search both curated (1,425+ entities) and OpenSanctions (10,000+) databases
2. **Get Entity Profile** - Retrieve full profile with aliases, metadata, and linked counts
3. **Get Relationships** - Query Wikidata for corporate connections, political positions, associates
4. **Find Mentions** - Get recent Telegram messages mentioning this entity
5. **Cross-Reference Events** - Check if entity is linked to any detected events

### Tools to use:
- `search_entities` with query=" +:+ dq +:+ interpolate (args !! "entity_name") +:+ dq +:+ (if truthy (args !! "entity_type") then ", entity_type=" +:+ dq +:+ interpolate (args !! "entity_type") +:+ dq else "") +:+ "
- `get_entity` for the matched entity
- `get_entity_relationships` for Wikidata connections
- `get_entity_mentions` for recent messages

### Key things to look for:
- Sanctions status (OFAC, EU, UK lists)
- PEP (Politically Exposed Person) flags
- Corporate ownership chains
- Recent activity patterns
- Cross-channel mention frequency".

Definition validate_claim (args : gmap string string) : string :=
  "# Claim Validation: Message #" +:+ interpolate (args !! "message_id") +:+ "

## Validation Workflow

I'll validate the claims in message #" +:+ interpolate (args !! "message_id") +:+ " by:

1. **Get Message Details** - Retrieve the full message with content and metadata
2. **Cross-Reference RSS** - Find correlated news articles from trusted sources
3. **Check Validation Status** - Get LLM validation result (confirms/contradicts/context)
4. **Find Event Context** - Check if message is part of a verified event cluster

### Tools to use:
- `get_message` with message_id=" +:+ interpolate (args !! "message_id") +:+ "
- `validate_message` to cross-reference with RSS
- `get_message_correlations` for related articles grouped by type
- `get_events_for_message` to find linked events

### Validation Categories:
- **confirms** - RSS article supports the Telegram claim
- **contradicts** - RSS article refutes the claim
- **context** - RSS provides additional context
- **alternative** - RSS presents a different perspective
- **none** - No relevant RSS articles found

### Trust Indicators:
- Event tier (rumor → unconfirmed → confirmed → verified)
- Number of independent sources
- Cross-affiliation validation (pro-UA and pro-RU sources agree)".

Definition track_event (args : gmap string string) : string :=
  "# Event Tracking" +:+ (if truthy (args !! "event_id") then ": Event #" +:+ interpolate (args !! "event_id") else "") +:+ "

## Event Tracking Workflow

I'll track this event through its lifecycle:

1. **Get Event Details** - Retrieve event with contributing channels and messages
2. **Build Timeline** - Combine Telegram messages and RSS articles chronologically
3. **Analyze Sources** - Check channel affiliations and source diversity
4. **Check Tier Status** - Understand verification level

" +:+ (if truthy (args !! "event_id") then "### Tools to use:
- `get_event` with event_id=" +:+ interpolate (args !! "event_id") +:+ ", include_messages=true, include_sources=true
- `get_event_timeline` for chronological view
- `get_event_stats` for overall event statistics" else "") +:+ "

" +:+ (if truthy (args !! "search_query") then "### Tools to use:
- `list_events` with search=" +:+ dq +:+ interpolate (args !! "search_query") +:+ dq +:+ "
- Then `get_event` and `get_event_timeline` for the relevant event" else "") +:+ "

### Event Tier Progression:
| Tier | Criteria |
|------|----------|
| **rumor** | Single channel reporting |
| **unconfirmed** | 2-3 channels, same affiliation |
| **confirmed** | 3+ channels, cross-affiliation |
| **verified** | Human-verified with evidence |

### Key Analysis Points:
- Time from first report to confirmation
- Channel diversity (affiliations)
- Geographic clustering
- Claim consistency across sources".

Definition analyze_channel (args : gmap string string) : string :=
  "# Channel Analysis: Channel #" +:+ interpolate (args !! "channel_id") +:+ "

## Analysis Workflow

I'll provide a comprehensive analysis of this channel:

1. **Get Channel Profile** - Basic info, affiliation, verification status
2. **Get Statistics** - Message counts, spam rate, topic distribution
3. **Analyze Network** - Semantic clusters and content relationships
4. **Map Influence** - Who forwards from/to this channel
5. **Recent Activity** - High-importance messages from last 7 days

### Tools to use:
- `get_channel` with channel_id=" +:+ interpolate (args !! "channel_id") +:+ "
- `get_channel_stats` for detailed statistics
- `get_channel_network` for content graph
- `get_channel_influence` for forward relationships
- `search_messages` with channel_id=" +:+ interpolate (args !! "channel_id") +:+ ", importance_level=" +:+ dq +:+ "high" +:+ dq +:+ ", days=7

### Channel Metadata to Review:
- **Affiliation**: russia, ukraine, neutral, unknown
- **Source Type**: state_media, military_unit, journalist, osint_aggregator, etc.
- **Folder Rule**: archive_all (important) vs selective_archive (filtered)
- **Verified Badge**: Telegram verification status

### Influence Indicators:
- Forwarding relationships (who amplifies this channel)
- Engagement patterns (views, forwards, reactions)
- Cross-affiliation reach".

Definition trace_narrative (args : gmap string string) : string :=
  "# Narrative Tracing" +:+ (if truthy (args !! "message_id") then ": Starting from Message #" +:+ interpolate (args !! "message_id") else "") +:+ "

## Narrative Tracing Workflow

I'll trace how this narrative spreads across the platform:

1. **Find Origin** - Identify the earliest instance of this narrative
2. **Find Similar** - Use semantic search to find related messages
3. **Map Propagation** - Track forwards and timing across channels
4. **Analyze Reach** - Calculate engagement and cross-affiliation spread

" +:+ (if truthy (args !! "message_id") then "### Tools to use:
- `get_message` with message_id=" +:+ interpolate (args !! "message_id") +:+ "
- `find_similar_messages` to find semantic matches
- `get_message_social_graph` for forward chain
- `get_engagement_timeline` for virality pattern" else "") +:+ "

" +:+ (if truthy (args !! "search_query") then "### Tools to use:
- `semantic_search` with query=" +:+ dq +:+ interpolate (args !! "search_query") +:+ dq +:+ "
- Then analyze the earliest result and trace forward" else "") +:+ "

### Propagation Indicators:
- **Forward Chains**: Direct resharing with attribution
- **Semantic Similarity**: Same content, different wording
- **Temporal Clustering**: Multiple posts within short window
- **Coordination Signals**: Near-simultaneous posting across channels".

Definition daily_briefing (args : gmap string string) : string :=
  "# Daily Intelligence Briefing

## Briefing Parameters
- **Time Window**: " +:+ or_default (args !! "hours") 24 +:+ " hours
" +:+ (if truthy (args !! "focus_topic") then "- **Focus Topic**: " +:+ interpolate (args !! "focus_topic") else "- **Focus**: All topics") +:+ "

## Briefing Workflow

I'll compile a comprehensive daily briefing:

1. **High-Priority Messages** - Important messages from the time window
2. **Confirmed Events** - Events that reached confirmed/verified status
3. **Topic Trends** - What topics are most active
4. **Viral Content** - Most forwarded/engaged content
5. **System Status** - Platform health and any issues

### Tools to use:
- `search_messages` with importance_level=" +:+ dq +:+ "high" +:+ dq +:+ ", days=1" +:+ (if truthy (args !! "focus_topic") then ", topic=" +:+ dq +:+ interpolate (args !! "focus_topic") +:+ dq else "") +:+ "
- `list_events` with tier_status=" +:+ dq +:+ "confirmed" +:+ dq +:+ " or " +:+ dq +:+ "verified" +:+ dq +:+ ", days=1
- `get_topic_distribution` with days=1
- `get_top_forwarded` with days=1
- `get_platform_stats_overview` for system health

### Topics Tracked:
combat, equipment, casualties, movements, infrastructure, humanitarian, diplomatic, intelligence, propaganda, units, locations, general".

Definition geographic_sitrep (args : gmap string string) : string :=
  "# Geographic Situation Report: " +:+ interpolate (args !! "location") +:+ "

## SITREP Parameters
- **Location**: " +:+ interpolate (args !! "location") +:+ "
- **Time Window**: " +:+ or_default (args !! "days") 7 +:+ " days

## SITREP Workflow

I'll compile a geographic situation report:

1. **Geolocated Messages** - Messages with coordinates in this area
2. **Event Clusters** - Detected events in the region
3. **Activity Heatmap** - Density of activity over time
4. **Location Suggestions** - Verify the exact location match

### Tools to use:
- `suggest_locations` with query=" +:+ dq +:+ interpolate (args !! "location") +:+ dq +:+ " to verify location
- `unified_search` with location=" +:+ dq +:+ interpolate (args !! "location") +:+ dq +:+ ", days=" +:+ or_default (args !! "days") 7 +:+ "
- `get_map_messages` with bounds for the area
- `get_map_clusters` for event locations
- `get_map_heatmap` for activity density

### Geographic Context:
- Use location autocomplete to find exact coordinates
- Bounding box format: " +:+ dq +:+ "minLng,minLat,maxLng,maxLat" +:+ dq +:+ "
- Coordinates are (latitude, longitude) in database but (longitude, latitude) in GeoJSON".

Definition platform_health_check (args : gmap string string) : string :=
  "# Platform Health Check

## Health Check Workflow

I'll perform a comprehensive platform health check:

1. **Overall Status** - Platform dashboard and service health
2. **Queue Health** - Redis worker queues and pending messages
3. **Enrichment Tasks** - Status of all 13 enrichment workers
4. **Data Quality** - Translation, embedding, and geolocation coverage
5. **LLM Performance** - Ollama model health and latency

### Tools to use:
- `get_platform_dashboard` - Overview metrics
- `get_platform_stats_overview` - Comprehensive stats
- `get_worker_stats` - Queue health
- `get_enrichment_tasks` - Task status
- `get_data_quality_stats` - Coverage metrics
- `get_metrics_llm` - LLM performance
- `get_cache_stats` - Redis performance

### Key Health Indicators:
| Metric | Healthy | Warning | Critical |
|--------|---------|---------|----------|
| Queue Depth | < 100 | 100-1000 | > 1000 |
| Processing Latency | < 1s | 1-5s | > 5s |
| Translation Coverage | > 95% | 80-95% | < 80% |
| LLM Availability | 100% | 95-99% | < 95% |".

Definition find_viral_content (args : gmap string string) : string :=
  "# Viral Content Discovery

## Discovery Parameters
- **Time Window**: " +:+ or_default (args !! "days") 7 +:+ " days
" +:+ (if truthy (args !! "topic") then "- **Topic Filter**: " +:+ interpolate (args !! "topic") else "- **Topics**: All") +:+ "

## Discovery Workflow

I'll find viral content and influence patterns:

1. **Top Forwarded** - Most forwarded messages
2. **Top Influencers** - Channels with highest reach
3. **Influence Network** - Cross-channel amplification patterns
4. **Engagement Trends** - Messages with unusual engagement velocity

### Tools to use:
- `get_top_forwarded` with days=" +:+ or_default (args !! "days") 7 +:+ "
- `get_top_influencers` with days=" +:+ or_default (args !! "days") 7 +:+ "
- `get_influence_network` with days=" +:+ or_default (args !! "days") 7 +:+ "
- `get_viral_posts` - Currently tracked viral posts
" +:+ (if truthy (args !! "topic") then "- Filter results by topic=" +:+ dq +:+ interpolate (args !! "topic") +:+ dq else "") +:+ "

### Virality Indicators:
- **Views/hour** > 1000 = High velocity
- **Forwards** > 50 = Significant reach
- **Cross-affiliation** = Narrative breakthrough
- **Comment count** > 20 = High engagement".

Definition discover_connections (args : gmap string string) : string :=
  "# Connection Discovery

## Discovery Workflow

I'll discover hidden connections and relationships:

" +:+ (if truthy (args !! "start_entity") then "### Starting from Entity: " +:+ interpolate (args !! "start_entity") +:+ "
- `search_entities` to find the entity
- `get_entity_relationships` for Wikidata connections
- `get_entity_mentions` for co-occurrence with other entities
- Look for shared mentions in same messages" else "") +:+ "

" +:+ (if truthy (args !! "start_channel") then "### Starting from Channel: " +:+ interpolate (args !! "start_channel") +:+ "
- `get_channel_influence` for forward relationships
- `get_influence_network` for broader patterns
- `get_channel_network` for semantic content clusters
- Look for coordinated posting patterns" else "") +:+ "

### Connection Types:
- **Entity → Entity**: Shared organizations, positions, transactions
- **Channel → Channel**: Forward relationships, timing correlation
- **Entity → Channel**: Frequent mentions, source attribution
- **Cross-Affiliation**: Unexpected connections across opposing sides".

Definition getPromptContent (name : string) (args : gmap string string)
  : string :=
  switch name
    [("investigate_entity", investigate_entity args);
     ("validate_claim", validate_claim args);
     ("track_event", track_event args);
     ("analyze_channel", analyze_channel args);
     ("trace_narrative", trace_narrative args);
     ("daily_briefing", daily_briefing args);
     ("geographic_sitrep", geographic_sitrep args);
     ("platform_health_check", platform_health_check args);
     ("find_viral_content", find_viral_content args);
     ("discover_connections", discover_connections args)]
    ("Unknown prompt: " +:+ name).

(** The argument keys that the template of a prompt reads, in the order
    of their first occurrence. *)
Definition referenced_keys (name : string) : list string :=
  switch name
    [("investigate_entity", ["entity_name"; "entity_type"]);
     ("validate_claim", ["message_id"]);
     ("track_event", ["event_id"; "search_query"]);
     ("analyze_channel", ["channel_id"]);
     ("trace_narrative", ["message_id"; "search_query"]);
     ("daily_briefing", ["hours"; "focus_topic"]);
     ("geographic_sitrep", ["location"; "days"]);
     ("platform_health_check", []);
     ("find_viral_content", ["days"; "topic"]);
     ("discover_connections", ["start_entity"; "start_channel"])]
    [].

End Prompts.

(** ** The resources (the resources module) *)

Module Resources.

(** A resource descriptor. *)
Record Resource : Type := {
  uri : string;
  resource_name : string;
  description : string;
  mimeType : string;
}.

Definition resources : list Resource := [
  {| uri := "osint://guide/getting-started";
     resource_name := "Getting Started Guide";
     description :=
       "Introduction to the OSINT platform and common workflows";
     mimeType := "text/markdown" |};
  {| uri := "osint://reference/topics";
     resource_name := "Topic Classification Reference";
     description :=
       "The 13 topic categories used for message classification";
     mimeType := "text/markdown" |};
  {| uri := "osint://reference/event-tiers";
     resource_name := "Event Tier Reference";
     description :=
       "Event verification tiers and progression criteria";
     mimeType := "text/markdown" |};
  {| uri := "osint://reference/entity-types";
     resource_name := "Entity Types Reference";
     description :=
       "Entity types and sources (curated, OpenSanctions, Wikidata)";
     mimeType := "text/markdown" |};
  {| uri := "osint://reference/channel-affiliations";
     resource_name := "Channel Affiliations Reference";
     description :=
       "Channel affiliation types and source categories";
     mimeType := "text/markdown" |};
  {| uri := "osint://reference/geolocation";
     resource_name := "Geolocation Pipeline Reference";
     description :=
       "4-stage geolocation pipeline and confidence scores";
     mimeType := "text/markdown" |};
  {| uri := "osint://workflows/investigation";
     resource_name := "Investigation Workflows";
     description :=
       "Step-by-step workflows for common investigation tasks";
     mimeType := "text/markdown" |}
].

(** The markdown text of each case of [getResourceContent]. *)

Definition getting_started : string :=
  "# Getting Started with OSINT Platform

## What is this platform?

The OSINT Intelligence Platform monitors Telegram channels for Ukraine-related intelligence, enriches content with AI analysis, and provides tools for investigation and validation.

## Key Concepts

### Messages
Telegram messages are the core data unit. Each message is enriched with:
- **AI Classification**: Importance level (high/medium/low) and topic
- **Entity Extraction**: People, organizations, equipment, locations mentioned
- **Embeddings**: 384-dim vectors for semantic search
- **Translation**: Automatic translation to English
- **Geolocation**: Coordinates extracted from content

### Channels
Telegram channels are organized by:
- **Folder**: Archive-UA (Ukrainian), Archive-RU (Russian), Monitor-*, etc.
- **Rule**: archive_all (save everything) or selective_archive (AI-filtered)
- **Affiliation**: ukraine, russia, neutral, unknown
- **Source Type**: state_media, military_unit, journalist, osint_aggregator

### Events
Events are clusters of messages about the same real-world incident:
- **Detection**: Velocity-based (message spikes) + semantic similarity
- **Verification**: Automatic tier progression as more sources report
- **Cross-reference**: Correlated with RSS news sources

## Quick Start Workflows

### 1. Search for Intelligence
```
" +:+ dq +:+ "Search for high-importance messages about [topic] from the last 7 days" +:+ dq +:+ "
" +:+ dq +:+ "Find messages similar to [description]" +:+ dq +:+ "
" +:+ dq +:+ "Search semantically for [concept]" +:+ dq +:+ "
```

### 2. Investigate an Entity
```
" +:+ dq +:+ "Investigate [person/organization name]" +:+ dq +:+ "
" +:+ dq +:+ "Find all mentions of [entity] and show relationships" +:+ dq +:+ "
" +:+ dq +:+ "Check if [name] is sanctioned" +:+ dq +:+ "
```

### 3. Validate a Claim
```
" +:+ dq +:+ "Validate message #[id] against news sources" +:+ dq +:+ "
" +:+ dq +:+ "Find RSS articles that confirm or contradict this claim" +:+ dq +:+ "
" +:+ dq +:+ "Show the event timeline for [topic]" +:+ dq +:+ "
```

### 4. Monitor the Platform
```
" +:+ dq +:+ "What's the platform health status?" +:+ dq +:+ "
" +:+ dq +:+ "Show data quality metrics" +:+ dq +:+ "
" +:+ dq +:+ "Check the processing queue" +:+ dq +:+ "
```

## Tips

1. **Use semantic search** for concepts (" +:+ dq +:+ "military equipment losses" +:+ dq +:+ ")
2. **Use text search** for specific terms (" +:+ dq +:+ "T-90M" +:+ dq +:+ ")
3. **Filter by importance=high** for analyst-relevant content
4. **Check event tiers** to assess verification level
5. **Cross-reference with RSS** for fact-checking".

Definition reference_topics : string :=
  "# Topic Classification Reference

The platform uses 13 topic categories for message classification:

| Topic | Description | Examples |
|-------|-------------|----------|
| **combat** | Active fighting, strikes, battles | Artillery strikes, drone attacks, firefights |
| **equipment** | Military hardware | Tank sightings, weapon systems, vehicle convoys |
| **casualties** | Losses and injuries | KIA reports, wounded, POW exchanges |
| **movements** | Troop movements | Deployments, rotations, reinforcements |
| **infrastructure** | Damage to infrastructure | Bridges, power plants, railways |
| **humanitarian** | Civilian impact | Evacuations, aid delivery, refugees |
| **diplomatic** | Political developments | Negotiations, sanctions, statements |
| **intelligence** | OSINT/reconnaissance | Satellite imagery, intercepted comms |
| **propaganda** | Information operations | Narratives, disinformation, morale ops |
| **units** | Military unit information | Brigade deployments, command changes |
| **locations** | Geographic references | City status, territorial control |
| **general** | General war-related | Doesn't fit specific categories |
| **uncertain** | Classification uncertain | Ambiguous content |

## Using Topic Filters

```
# Search by topic
search_messages(topic=" +:+ dq +:+ "combat" +:+ dq +:+ ", importance_level=" +:+ dq +:+ "high" +:+ dq +:+ ")

# Get topic distribution
get_topic_distribution(days=7)

# Multiple topics via unified search
unified_search(query=" +:+ dq +:+ "Bakhmut" +:+ dq +:+ ", types=" +:+ dq +:+ "messages" +:+ dq +:+ ")
```

## Topic Assignment

Topics are assigned by the LLM classifier (qwen2.5) based on:
1. Content analysis
2. Entity types mentioned
3. Context from channel affiliation
4. Keyword patterns".

Definition reference_event_tiers : string :=
  "# Event Verification Tiers

Events (message clusters) progress through verification tiers automatically:

## Tier Definitions

| Tier | Criteria | Confidence | Color |
|------|----------|------------|-------|
| **rumor** | Single channel reporting | Very Low | Red |
| **unconfirmed** | 2-3 channels, same affiliation | Low | Yellow |
| **confirmed** | 3+ channels, cross-affiliation | Medium | Orange |
| **verified** | Human-verified with evidence | High | Green |

## Automatic Progression

The system automatically promotes events when:

1. **rumor → unconfirmed**: Additional channels report (same affiliation)
2. **unconfirmed → confirmed**: Cross-affiliation reporting (e.g., both pro-UA and pro-RU sources)
3. **confirmed → verified**: Manual human verification (analyst action)

## Cross-Affiliation Requirement

For an event to reach " +:+ dq +:+ "confirmed" +:+ dq +:+ " tier:
- Must have reports from channels with DIFFERENT affiliations
- Example: Both a Ukrainian military channel AND a Russian news channel report the same strike

This prevents echo-chamber confirmation within a single information bubble.

## Event Detection

Events are detected via:
1. **Velocity Spike**: Sudden increase in messages about same topic/location
2. **Semantic Clustering**: Messages with similar embeddings (>0.80 similarity)
3. **Geographic Clustering**: Messages about same location within time window

## Using Event Tiers

```
# List confirmed events only
list_events(tier_status=" +:+ dq +:+ "confirmed" +:+ dq +:+ ")

# Get event statistics by tier
get_event_stats()

# Check events for a message
get_events_for_message(message_id=12345)
```".

Definition reference_entity_types : string :=
  "# Entity Types and Sources

## Entity Types

| Type | Description | Examples |
|------|-------------|----------|
| **person** | Individuals | Military commanders, politicians, journalists |
| **organization** | Groups/companies | Wagner Group, Rosatom, Red Cross |
| **military_unit** | Military formations | 72nd Mechanized Brigade, 1st Tank Army |
| **equipment** | Military hardware | T-90M, HIMARS, Bayraktar TB2 |
| **location** | Geographic places | Bakhmut, Zaporizhzhia NPP |
| **event** | Historical events | Bucha massacre, Kerch Bridge attack |
| **ship** | Naval vessels | Moskva cruiser, landing ships |
| **aircraft** | Aviation assets | Su-35, Ka-52, A-50 |
| **vehicle** | Ground vehicles | BTR-82A, BMP-3 |
| **weapon** | Weapon systems | Kalibr missiles, Shahed drones |
| **electronic_warfare** | EW systems | Krasukha, Pole-21 |
| **component** | Equipment parts | Targeting pods, radios |

## Entity Sources

### 1. Curated Entities (1,425+)
- Manually curated knowledge base
- High confidence matches
- Ukraine/Russia conflict specific
- Updated regularly

### 2. OpenSanctions (10,000+)
- Integrated via Yente API
- Sanctions lists: OFAC, EU, UK, UN
- PEP (Politically Exposed Persons)
- Corporate ownership data

### 3. Wikidata Enrichment
- Automatic profile enhancement
- Relationship graphs (employers, positions)
- Images and descriptions
- 7-day cache for performance

## Confidence Scores

| Extraction Method | Confidence | Symbol |
|-------------------|------------|--------|
| Dictionary match | 0.95-1.0 | Solid |
| NER extraction | 0.7-0.95 | ~ |
| Fuzzy match | 0.6-0.85 | ? |

## Using Entity Search

```
# Search all sources
search_entities(query=" +:+ dq +:+ "Putin" +:+ dq +:+ ", source=" +:+ dq +:+ "all" +:+ dq +:+ ")

# Search OpenSanctions only
search_entities(query=" +:+ dq +:+ "Prigozhin" +:+ dq +:+ ", source=" +:+ dq +:+ "opensanctions" +:+ dq +:+ ")

# Get relationships
get_entity_relationships(source=" +:+ dq +:+ "curated" +:+ dq +:+ ", entity_id=" +:+ dq +:+ "Q12345" +:+ dq +:+ ")
```".

Definition reference_channel_affiliations : string :=
  "# Channel Affiliations and Source Types

## Affiliations

| Affiliation | Description | Typical Sources |
|-------------|-------------|-----------------|
| **ukraine** | Pro-Ukrainian | Ukrainian military, govt, OSINT |
| **russia** | Pro-Russian | Russian state media, milbloggers |
| **neutral** | Balanced/Western | International media, NGOs |
| **unknown** | Not yet classified | New channels under evaluation |

## Source Types

| Type | Description | Reliability Notes |
|------|-------------|-------------------|
| **state_media** | Government-controlled | High volume, narrative-driven |
| **military_unit** | Official unit channels | Primary source for own operations |
| **military_official** | Individual officers | Insider perspective |
| **government_official** | Political figures | Policy/diplomatic focus |
| **journalist** | Independent reporters | Varied reliability |
| **osint_aggregator** | OSINT accounts | Secondary analysis |
| **news_aggregator** | News compilation | Multiple source coverage |
| **personality** | Influencers/bloggers | Opinion-heavy |
| **regional** | Local news | Ground-level detail |
| **militant** | Armed group channels | Self-reporting bias |

## Folder Organization

Channels are organized in Telegram folders:
- `Archive-UA` - Ukrainian sources, archive all
- `Archive-RU` - Russian sources, archive all
- `Monitor-UA` - Ukrainian, selective archive
- `Monitor-RU` - Russian, selective archive
- `Discover-*` - New channels under evaluation

## Cross-Affiliation Analysis

When analyzing events, cross-affiliation confirmation is key:
- Same event reported by both pro-UA and pro-RU = higher confidence
- Only single-affiliation = potential echo chamber
- Neutral sources can break ties

## Using Affiliation Filters

```
# List Ukrainian channels
list_channels(folder=" +:+ dq +:+ "Archive-UA" +:+ dq +:+ ")

# Get channel stats by affiliation
get_channels_admin_stats()

# Filter messages by channel folder
search_messages(channel_folder=" +:+ dq +:+ "Archive-UA" +:+ dq +:+ ")
```".

Definition reference_geolocation : string :=
  "# Geolocation Pipeline Reference

## 4-Stage Pipeline

Messages are geocoded through a 4-stage pipeline:

| Stage | Method | Confidence | Speed |
|-------|--------|------------|-------|
| 1. **Gazetteer** | Offline dictionary (30,000+ locations) | 0.95 | Fast |
| 2. **LLM Relative** | AI interpretation (" +:+ dq +:+ "10km north of X" +:+ dq +:+ ") | 0.75 | Medium |
| 3. **Nominatim** | OpenStreetMap API lookup | 0.85 | Slow |
| 4. **Unresolved** | Manual review queue | - | Manual |

## Stage Details

### Stage 1: Gazetteer Match
- 30,000+ UA/RU locations from GeoNames
- Exact name matching with variants
- Fastest and most reliable
- Includes: cities, villages, oblasts, landmarks

### Stage 2: LLM Relative Location
- Handles relative descriptions: " +:+ dq +:+ "near Bakhmut" +:+ dq +:+ ", " +:+ dq +:+ "10km east of Kherson" +:+ dq +:+ "
- Uses reference point + direction/distance
- Lower confidence due to interpretation

### Stage 3: Nominatim API
- OpenStreetMap geocoding service
- Handles addresses and POIs
- Rate-limited, used as fallback

### Stage 4: Unresolved Queue
- Messages that couldn't be geocoded
- Flagged for manual review
- May contain novel or misspelled locations

## Location Types

| Type | Description |
|------|-------------|
| **point** | Single location |
| **origin** | Movement start point |
| **destination** | Movement end point |
| **waypoint** | Intermediate point |

## Coordinate Systems

- **Database**: (latitude, longitude) - standard
- **GeoJSON**: [longitude, latitude] - reversed!
- **Bounding Box**: " +:+ dq +:+ "minLng,minLat,maxLng,maxLat" +:+ dq +:+ "

## Using Geolocation

```
# Suggest locations (autocomplete)
suggest_locations(query=" +:+ dq +:+ "Bakhmut" +:+ dq +:+ ")

# Reverse geocode coordinates
reverse_geocode(lat=48.5953, lng=37.9997)

# Get map messages in area
get_map_messages(bounds=" +:+ dq +:+ "37.5,48.0,38.5,49.0" +:+ dq +:+ ")

# Get event clusters on map
get_map_clusters(tier_status=" +:+ dq +:+ "confirmed" +:+ dq +:+ ")
```".

Definition workflows_investigation : string :=
  "# Investigation Workflows

## Workflow 1: Entity Investigation

```mermaid
graph TD
    A[Start: Entity Name] --> B[search_entities]
    B --> C{Found?}
    C -->|Yes| D[get_entity]
    C -->|No| E[Try fuzzy search / OpenSanctions]
    D --> F[get_entity_relationships]
    F --> G[get_entity_mentions]
    G --> H[Analyze patterns]
```

### Steps:
1. `search_entities(query=" +:+ dq +:+ "Name" +:+ dq +:+ ", source=" +:+ dq +:+ "all" +:+ dq +:+ ")`
2. `get_entity(source, entity_id)`
3. `get_entity_relationships(source, entity_id)`
4. `get_entity_mentions(source, entity_id, limit=20)`
5. Analyze mention frequency, co-occurring entities, channels

## Workflow 2: Claim Validation

```mermaid
graph TD
    A[Start: Message ID] --> B[get_message]
    B --> C[validate_message]
    C --> D{Validation Result}
    D -->|Confirms| E[High confidence]
    D -->|Contradicts| F[Flag for review]
    D -->|None| G[get_events_for_message]
    G --> H[Check event tier]
```

### Steps:
1. `get_message(message_id)` - Get full content
2. `validate_message(message_id)` - Cross-reference RSS
3. `get_message_correlations(message_id)` - Find related articles
4. `get_events_for_message(message_id)` - Check event context
5. Assess: validation status + event tier = confidence level

## Workflow 3: Narrative Tracing

```mermaid
graph TD
    A[Start: Narrative] --> B[semantic_search]
    B --> C[Find earliest instance]
    C --> D[get_message_social_graph]
    D --> E[Track forward chain]
    E --> F[find_similar_messages]
    F --> G[Map propagation]
```

### Steps:
1. `semantic_search(query=" +:+ dq +:+ "narrative description" +:+ dq +:+ ")`
2. Sort by date, find origin
3. `get_message_social_graph(message_id)` - Get forward chain
4. `find_similar_messages(message_id)` - Find variations
5. `get_engagement_timeline(message_id)` - Track virality
6. Analyze: timing, channels, cross-affiliation spread

## Workflow 4: Geographic Analysis

```mermaid
graph TD
    A[Start: Location] --> B[suggest_locations]
    B --> C[Get coordinates/bounds]
    C --> D[get_map_messages]
    D --> E[get_map_clusters]
    E --> F[get_map_heatmap]
    F --> G[Analyze patterns]
```

### Steps:
1. `suggest_locations(query=" +:+ dq +:+ "location name" +:+ dq +:+ ")`
2. Extract coordinates or define bounding box
3. `get_map_messages(bounds, days=7)`
4. `get_map_clusters(bounds)` - Event locations
5. `get_map_heatmap(bounds)` - Activity density
6. Analyze: hotspots, event clusters, temporal patterns

## Workflow 5: Channel Analysis

```mermaid
graph TD
    A[Start: Channel] --> B[get_channel]
    B --> C[get_channel_stats]
    C --> D[get_channel_influence]
    D --> E[get_channel_network]
    E --> F[search_messages high importance]
```

### Steps:
1. `get_channel(channel_id)` - Basic info
2. `get_channel_stats(channel_id)` - Volume, topics
3. `get_channel_influence(channel_id)` - Forward relationships
4. `get_channel_network(channel_id)` - Content clusters
5. `search_messages(channel_id, importance_level=" +:+ dq +:+ "high" +:+ dq +:+ ", days=30)`
6. Assess: reliability, influence, content patterns".

(** Get resource content by URI. *)
Definition getResourceContent (uri : string) : string :=
  switch uri
    [("osint://guide/getting-started", getting_started);
     ("osint://reference/topics", reference_topics);
     ("osint://reference/event-tiers", reference_event_tiers);
     ("osint://reference/entity-types", reference_entity_types);
     ("osint://reference/channel-affiliations", reference_channel_affiliations);
     ("osint://reference/geolocation", reference_geolocation);
     ("osint://workflows/investigation", workflows_investigation)]
    ("Resource not found: " +:+ uri).

End Resources.

(** ** The earlier revision (version 1.0.0) of the client and the server *)

Module V1.

Module ApiClient.

Record ApiClientConfig : Type := {
  baseUrl : string;
  apiKey : option string;
  jwtToken : option string;
}.

Record OsintApiClient : Type := {
  this_baseUrl : string;
  this_headers : gmap string string;
}.

Abbreviation strip_trailing_slash := ApiClient.strip_trailing_slash.
Abbreviation when_set := ApiClient.when_set.
Abbreviation json_headers := ApiClient.json_headers.
Abbreviation Params := ApiClient.Params.
Abbreviation append_params := ApiClient.append_params.
Abbreviation response_json := ApiClient.response_json.

(** [constructor(config)]: the JWT token as a bearer token, else the API
    key in a header of its own. *)
Definition new_OsintApiClient (config : ApiClientConfig) : OsintApiClient :=
  let headers := json_headers in
  {| this_baseUrl := strip_trailing_slash (baseUrl config);
     this_headers :=
       match when_set (jwtToken config) with
       | Some jwt => <["Authorization" := "Bearer " +:+ jwt]> headers
       | None =>
         match when_set (apiKey config) with
         | Some key => <["X-API-Key" := key]> headers
         | None => headers
         end
       end |}.

Section Requests.
Context `{Platform}.

(** Make a GET request to the API. As in the later revision, [new URL]
    is taken to accept the base URL followed by the endpoint. *)
Definition get (self : OsintApiClient) (endpoint : string)
    (params : option Params) : Async Json :=
  let url := this_baseUrl self +:+ endpoint in
  let searchParams :=
    match params with
    | Some params => append_params params []
    | None => []
    end in
  let* (status, text) :=
    fetch {| req_method := GET;
             req_url := url;
             req_query := searchParams;
             req_headers := this_headers self;
             req_body := None |} in
  if negb (ok status) then
    throw ("API Error " +:+ pretty status +:+ ": " +:+ text)
  else response_json text.

(** Make a POST request to the API. *)
Definition post (self : OsintApiClient) (endpoint : string)
    (body : option Json) : Async Json :=
  let* (status, text) :=
    fetch {| req_method := POST;
             req_url := this_baseUrl self +:+ endpoint;
             req_query := [];
             req_headers := this_headers self;
             req_body :=
               match body with
               | Some value =>
                   if JSON_truthy value then Some (JSON_stringify value None)
                   else None
               | None => None
               end |} in
  if negb (ok status) then
    throw ("API Error " +:+ pretty status +:+ ": " +:+ text)
  else response_json text.

Definition searchMessages (self : OsintApiClient) (params : Params)
  : Async Json :=
  get self "/api/messages" (Some params).

Definition getMessage (self : OsintApiClient) (messageId : JsValue)
  : Async Json :=
  get self ("/api/messages/" +:+ ToString messageId) None.

Definition getAdjacentMessages (self : OsintApiClient) (messageId : JsValue)
  : Async Json :=
  get self ("/api/messages/" +:+ ToString messageId +:+ "/adjacent") None.

Definition semanticSearch (self : OsintApiClient) (params : Params)
  : Async Json :=
  get self "/api/semantic/search" (Some params).

Definition findSimilarMessages (self : OsintApiClient)
    (messageId : JsValue) (params : option Params)
  : Async Json :=
  get self ("/api/semantic/similar/" +:+ ToString messageId) params.

Definition unifiedSearch (self : OsintApiClient) (params : Params)
  : Async Json :=
  get self "/api/search" (Some params).

Definition listChannels (self : OsintApiClient) (params : option Params)
  : Async Json :=
  get self "/api/channels" params.

Definition getChannel (self : OsintApiClient) (channelId : JsValue)
  : Async Json :=
  get self ("/api/channels/" +:+ ToString channelId) None.

Definition getChannelStats (self : OsintApiClient) (channelId : JsValue)
  : Async Json :=
  get self ("/api/channels/" +:+ ToString channelId +:+ "/stats") None.

Definition searchEntities (self : OsintApiClient) (params : Params)
  : Async Json :=
  get self "/api/entities/search" (Some params).

Definition getEntity (self : OsintApiClient) (entityId : JsValue)
  : Async Json :=
  get self ("/api/entities/" +:+ ToString entityId) None.

Definition getEntityRelationships (self : OsintApiClient) (entityId : JsValue)
  : Async Json :=
  get self ("/api/entities/" +:+ ToString entityId +:+ "/relationships") None.

Definition getEntityLinkedMessages (self : OsintApiClient)
    (entityId : JsValue) (params : option Params)
  : Async Json :=
  get self ("/api/entities/" +:+ ToString entityId +:+ "/messages") params.

Definition listEvents (self : OsintApiClient) (params : option Params)
  : Async Json :=
  get self "/api/events" params.

Definition getEvent (self : OsintApiClient) (eventId : JsValue)
  : Async Json :=
  get self ("/api/events/" +:+ ToString eventId) None.

Definition getEventMessages (self : OsintApiClient) (eventId : JsValue)
  : Async Json :=
  get self ("/api/events/" +:+ ToString eventId +:+ "/messages") None.

Definition getTimelineStats (self : OsintApiClient) (params : option Params)
  : Async Json :=
  get self "/api/analytics/timeline" params.

Definition getTopicDistribution (self : OsintApiClient) (params : option Params)
  : Async Json :=
  get self "/api/analytics/topics" params.

Definition getChannelAnalytics (self : OsintApiClient) (params : option Params)
  : Async Json :=
  get self "/api/analytics/channels" params.

Definition getMessageSocialGraph (self : OsintApiClient) (messageId : JsValue)
  : Async Json :=
  get self ("/api/messages/" +:+ ToString messageId +:+ "/social-graph") None.

Definition getChannelNetwork (self : OsintApiClient)
    (channelId : JsValue) (params : option Params)
  : Async Json :=
  get self ("/api/channels/" +:+ ToString channelId +:+ "/network") params.

Definition getMapMessages (self : OsintApiClient) (params : option Params)
  : Async Json :=
  get self "/api/map/messages" params.

Definition getMapClusters (self : OsintApiClient) (params : option Params)
  : Async Json :=
  get self "/api/map/clusters" params.

Definition getHealth (self : OsintApiClient)
  : Async Json :=
  get self "/health" None.

Definition getSystemStatus (self : OsintApiClient)
  : Async Json :=
  get self "/api/system/status" None.

End Requests.

End ApiClient.

Module Index.
Import ApiClient Mcp.

Abbreviation Env := Index.Env.

Definition tools : list Tool := [
  {| name := "search_messages";
     properties :=
       [("query", PString); ("channel_id", PNumber); ("days", PNumber);
        ("date_from", PString); ("date_to", PString);
        ("importance_level", PEnum ["high"; "medium"; "low"]);
        ("topic", PString); ("has_media", PBoolean); ("page", PNumber);
        ("page_size", PNumber)];
     required := [] |};
  {| name := "get_message";
     properties :=
       [("message_id", PNumber)];
     required := ["message_id"] |};
  {| name := "get_message_social_graph";
     properties :=
       [("message_id", PNumber)];
     required := ["message_id"] |};
  {| name := "semantic_search";
     properties :=
       [("query", PString); ("similarity_threshold", PNumber);
        ("limit", PNumber); ("channel_id", PNumber); ("days", PNumber)];
     required := ["query"] |};
  {| name := "find_similar_messages";
     properties :=
       [("message_id", PNumber); ("similarity_threshold", PNumber);
        ("limit", PNumber)];
     required := ["message_id"] |};
  {| name := "unified_search";
     properties :=
       [("query", PString); ("mode", PEnum ["text"; "semantic"]);
        ("types", PString); ("limit_per_type", PNumber); ("days", PNumber)];
     required := ["query"] |};
  {| name := "list_channels";
     properties :=
       [("active_only", PBoolean);
        ("rule", PEnum ["archive_all"; "selective_archive"; "test"; "staging"]);
        ("folder", PString); ("verified_only", PBoolean); ("limit", PNumber)];
     required := [] |};
  {| name := "get_channel";
     properties :=
       [("channel_id", PNumber)];
     required := ["channel_id"] |};
  {| name := "get_channel_stats";
     properties :=
       [("channel_id", PNumber)];
     required := ["channel_id"] |};
  {| name := "get_channel_network";
     properties :=
       [("channel_id", PNumber); ("depth", PNumber)];
     required := ["channel_id"] |};
  {| name := "search_entities";
     properties :=
       [("query", PString);
        ("source", PEnum ["curated"; "opensanctions"; "all"]);
        ("entity_type", PString); ("limit", PNumber)];
     required := ["query"] |};
  {| name := "get_entity";
     properties :=
       [("entity_id", PString)];
     required := ["entity_id"] |};
  {| name := "get_entity_relationships";
     properties :=
       [("entity_id", PString)];
     required := ["entity_id"] |};
  {| name := "get_entity_mentions";
     properties :=
       [("entity_id", PString); ("limit", PNumber)];
     required := ["entity_id"] |};
  {| name := "list_events";
     properties :=
       [("tier", PEnum ["rumor"; "unconfirmed"; "confirmed"; "verified"]);
        ("days", PNumber); ("location", PString); ("limit", PNumber)];
     required := [] |};
  {| name := "get_event";
     properties :=
       [("event_id", PNumber)];
     required := ["event_id"] |};
  {| name := "get_event_messages";
     properties :=
       [("event_id", PNumber)];
     required := ["event_id"] |};
  {| name := "get_timeline_stats";
     properties :=
       [("granularity", PEnum ["hour"; "day"; "week"; "month"; "year"]);
        ("channel_id", PNumber); ("topic", PString);
        ("importance_level", PEnum ["high"; "medium"; "low"]);
        ("days", PNumber)];
     required := [] |};
  {| name := "get_topic_distribution";
     properties :=
       [("days", PNumber); ("limit", PNumber)];
     required := [] |};
  {| name := "get_channel_analytics";
     properties :=
       [("days", PNumber); ("limit", PNumber)];
     required := [] |};
  {| name := "get_map_messages";
     properties :=
       [("bbox", PString); ("days", PNumber); ("zoom", PNumber)];
     required := [] |};
  {| name := "get_map_clusters";
     properties :=
       [("bbox", PString);
        ("tier", PEnum ["rumor"; "unconfirmed"; "confirmed"; "verified"]);
        ("days", PNumber)];
     required := [] |};
  {| name := "get_system_health";
     properties :=
       [];
     required := [] |};
  {| name := "get_system_status";
     properties :=
       [];
     required := [] |}
].

Section Process.
Context `{Platform} (env : Env).

Definition API_BASE_URL : string :=
  match when_set (Index.OSINT_API_URL env) with
  | Some url => url
  | None => "http://localhost:8000"
  end.
Definition API_KEY : option string := Index.OSINT_API_KEY env.
Definition JWT_TOKEN : option string := Index.OSINT_JWT_TOKEN env.

(** Initialize API client. *)
Definition apiClient : OsintApiClient :=
  new_OsintApiClient
    {| baseUrl := API_BASE_URL;
       apiKey := API_KEY;
       jwtToken := JWT_TOKEN |}.

Definition handleToolCall_cases : list (string * (Bag → Async Json)) := [
  ("search_messages", fun args =>
     searchMessages apiClient
        [("q", args.["query"]); ("channel_id", args.["channel_id"]);
         ("days", args.["days"]); ("date_from", args.["date_from"]);
         ("date_to", args.["date_to"]);
         ("importance_level", args.["importance_level"]);
         ("topic", args.["topic"]); ("has_media", args.["has_media"]);
         ("page", args.["page"]); ("page_size", args.["page_size"])]);
  ("get_message", fun args =>
     getMessage apiClient args.["message_id"]);
  ("get_message_social_graph", fun args =>
     getMessageSocialGraph apiClient args.["message_id"]);
  ("semantic_search", fun args =>
     semanticSearch apiClient
        [("q", args.["query"]);
         ("similarity_threshold", args.["similarity_threshold"]);
         ("limit", args.["limit"]); ("channel_id", args.["channel_id"]);
         ("days", args.["days"])]);
  ("find_similar_messages", fun args =>
     findSimilarMessages apiClient args.["message_id"] (Some
        [("similarity_threshold", args.["similarity_threshold"]);
         ("limit", args.["limit"])]));
  ("unified_search", fun args =>
     unifiedSearch apiClient
        [("q", args.["query"]); ("mode", args.["mode"]);
         ("types", args.["types"]);
         ("limit_per_type", args.["limit_per_type"]);
         ("days", args.["days"])]);
  ("list_channels", fun args =>
     listChannels apiClient (Some
        [("active_only", args.["active_only"]); ("rule", args.["rule"]);
         ("folder", args.["folder"]);
         ("verified_only", args.["verified_only"]);
         ("limit", args.["limit"])]));
  ("get_channel", fun args =>
     getChannel apiClient args.["channel_id"]);
  ("get_channel_stats", fun args =>
     getChannelStats apiClient args.["channel_id"]);
  ("get_channel_network", fun args =>
     getChannelNetwork apiClient args.["channel_id"] (Some
        [("depth", args.["depth"])]));
  ("search_entities", fun args =>
     searchEntities apiClient
        [("q", args.["query"]); ("source", args.["source"]);
         ("entity_type", args.["entity_type"]); ("limit", args.["limit"])]);
  ("get_entity", fun args =>
     getEntity apiClient args.["entity_id"]);
  ("get_entity_relationships", fun args =>
     getEntityRelationships apiClient args.["entity_id"]);
  ("get_entity_mentions", fun args =>
     getEntityLinkedMessages apiClient args.["entity_id"] (Some
        [("limit", args.["limit"])]));
  ("list_events", fun args =>
     listEvents apiClient (Some
        [("tier", args.["tier"]); ("days", args.["days"]);
         ("location", args.["location"]); ("limit", args.["limit"])]));
  ("get_event", fun args =>
     getEvent apiClient args.["event_id"]);
  ("get_event_messages", fun args =>
     getEventMessages apiClient args.["event_id"]);
  ("get_timeline_stats", fun args =>
     getTimelineStats apiClient (Some
        [("granularity", args.["granularity"]);
         ("channel_id", args.["channel_id"]); ("topic", args.["topic"]);
         ("importance_level", args.["importance_level"]);
         ("days", args.["days"])]));
  ("get_topic_distribution", fun args =>
     getTopicDistribution apiClient (Some
        [("days", args.["days"]); ("limit", args.["limit"])]));
  ("get_channel_analytics", fun args =>
     getChannelAnalytics apiClient (Some
        [("days", args.["days"]); ("limit", args.["limit"])]));
  ("get_map_messages", fun args =>
     getMapMessages apiClient (Some
        [("bbox", args.["bbox"]); ("days", args.["days"]);
         ("zoom", args.["zoom"])]));
  ("get_map_clusters", fun args =>
     getMapClusters apiClient (Some
        [("bbox", args.["bbox"]); ("tier", args.["tier"]);
         ("days", args.["days"])]));
  ("get_system_health", fun args =>
     getHealth apiClient);
  ("get_system_status", fun args =>
     getSystemStatus apiClient)
].

Definition handleToolCall (name : string) (args : Bag) : Async Json :=
  switch name handleToolCall_cases
    (fun _ => throw ("Unknown tool: " +:+ name)) args.

(** Handle tool calls (of a request that has its [arguments]
    member). *)
Definition callTool (request : CallToolRequest) : Async CallToolResult :=
  let name := params_name request in
  let args := params_arguments request in
  try_catch
    (let* result := handleToolCall name args in
     ret {| content :=
              [{| block_type := "text";
                  block_text := JSON_stringify result (Some 2) |}];
            isError := None |})
    (fun errorMessage =>
     ret {| content :=
              [{| block_type := "text";
                  block_text := "Error: " +:+ errorMessage |}];
            isError := Some true |}).

Definition server : Server :=
  setRequestHandler CallToolRequestSchema (CallToolHandler callTool)
    (setRequestHandler ListToolsRequestSchema (ListToolsHandler (ret tools))
       (new_Server "osint-mcp-server" "1.0.0" ["tools"])).

End Process.

End Index.

End V1.

(** * Vocabulary of the properties *)

Section Vocabulary.
Import Mcp.

(** Every tool of the catalog has exactly one case of the dispatcher that
    bears its name, which is the case that the [switch] takes at that
    name; every case label is the name of exactly one tool; and a name
    outside the catalog goes to the default. Positions in the two lists
    stand for the descriptors and the cases. *)
Definition catalog_dispatcher_bijection {A : Type} (tools : list Tool)
    (cases : list (string * A)) : Prop :=
  (∀ t, t ∈ tools →
     ∃ i c, cases !! i = Some c ∧ fst c = name t
            ∧ (∀ default, switch (name t) cases default = snd c)
            ∧ ∀ i' c', cases !! i' = Some c' → fst c' = name t → i' = i)
  ∧ (∀ c, c ∈ cases →
     ∃ j t, tools !! j = Some t ∧ name t = fst c
            ∧ ∀ j' t', tools !! j' = Some t' → name t' = fst c → j' = j)
  ∧ (∀ n default, n ∉ name <$> tools → switch n cases default = default).

(** The dispatcher [handleToolCall] dispatches the catalog through the
    cases: every tool has exactly one case that bears its name, and the
    call of that name is the binding of that case, whatever the
    arguments; every case label is the name of exactly one tool; and a
    name outside the catalog is refused with [Unknown tool: <name>]. *)
Definition dispatches_the_catalog `{Platform} (tools : list Tool)
    (cases : list (string * (Bag → Async Json)))
    (handleToolCall : string → Bag → Async Json) : Prop :=
  (∀ t, t ∈ tools →
     ∃ i c, cases !! i = Some c ∧ fst c = name t
            ∧ (∀ args, handleToolCall (name t) args = snd c args)
            ∧ ∀ i' c', cases !! i' = Some c' → fst c' = name t → i' = i)
  ∧ (∀ c, c ∈ cases →
     ∃ j t, tools !! j = Some t ∧ name t = fst c
            ∧ ∀ j' t', tools !! j' = Some t' → name t' = fst c → j' = j)
  ∧ (∀ n args, n ∉ name <$> tools →
       handleToolCall n args = throw ("Unknown tool: " +:+ n)).

(** The values that [String] prints as [ToString] has them: strings,
    booleans, and the integers that a double holds exactly, which are
    printed in decimal. *)
Definition prints_exactly (value : JsValue) : Prop :=
  match value with
  | VStr _ | VBool _ => True
  | VNum n => - 2 ^ 53 < n < 2 ^ 53
  | _ => False
  end.

(** The entries of a parameter object that [get] appends to the search
    parameters: those whose value is neither [undefined] nor [null]. *)
Definition appended (params : option ApiClient.Params)
  : list (string * JsValue) :=
  filter (fun entry => defined (snd entry)) (default [] params).

(** An optional configuration string is set to [s]: it is present and not
    empty, which is what [if (config.x)] tests. *)
Definition is_set (o : option string) (s : string) : Prop :=
  o = Some s ∧ s ≠ "".

(** It is not set: absent or empty. *)
Definition unset (o : option string) : Prop := truthy o = false.

(** The one [fetch] of [get] and of [post]. *)
Definition get_request (self : ApiClient.OsintApiClient) (endpoint : string)
    (params : option ApiClient.Params) : Request :=
  {| req_method := GET;
     req_url := ApiClient.this_baseUrl self +:+ endpoint;
     req_query := from_option (fun ps => ApiClient.append_params ps []) [] params;
     req_headers := ApiClient.this_headers self;
     req_body := None |}.

Definition post_request `{Platform} (self : ApiClient.OsintApiClient)
    (endpoint : string) (body : option Json) : Request :=
  {| req_method := POST;
     req_url := ApiClient.this_baseUrl self +:+ endpoint;
     req_query := [];
     req_headers := ApiClient.this_headers self;
     req_body :=
       body ≫= fun value =>
         if JSON_truthy value then Some (JSON_stringify value None) else None |}.

(** The entries that [get] appends to the search parameters, in closed
    form: the defined entries of [params], in their order, with their
    values converted by [String]. *)
Definition query_entry (entry : string * JsValue)
  : option (string * string) :=
  if defined (snd entry) then Some (fst entry, ToString (snd entry)) else None.


(** The argument names that the input schema of a tool declares. *)
Definition declared (t : Mcp.Tool) : list string := (properties t).*1.

(** Two argument bags read the same at every one of the fields. *)
Definition agree_on (fields : list string) (args1 args2 : Bag) : Prop :=
  ∀ field, field ∈ fields → args1.[field] = args2.[field].

(** The server has a handler for the requests of a schema. *)
Definition serves (server : Mcp.Server) (schema : Mcp.RequestSchema) : Prop :=
  is_Some (Mcp.handler_of server schema).

(** The one [fetch] of [get] in the earlier revision of the client. *)
Definition V1_get_request (self : V1.ApiClient.OsintApiClient)
    (endpoint : string) (params : option ApiClient.Params) : Request :=
  {| req_method := GET;
     req_url := V1.ApiClient.this_baseUrl self +:+ endpoint;
     req_query := from_option (fun ps => ApiClient.append_params ps []) [] params;
     req_headers := V1.ApiClient.this_headers self;
     req_body := None |}.

(** A status outside the 2xx range. *)
Definition non_2xx (status : Z) : Prop := ¬ (200 ≤ status ≤ 299).

(** The message of the error of a failed call. *)
Definition api_error (status : Z) (text : string) : string :=
  "API Error " +:+ pretty status +:+ ": " +:+ text.

(** A platform whose JSON values are kept as their text, on which the
    statements are tried. *)
Definition text_platform : Platform :=
  {| Json := string;
     JSON_parse := Some;
     JSON_stringify := fun value _ => value;
     JSON_truthy := fun value => negb (String.eqb value "");
     JSON_syntax_error := fun _ => "Unexpected token" |}.

(** A process environment that sets none of the variables. *)
Definition unconfigured : Index.Env :=
  {| Index.OSINT_API_URL := None;
     Index.OSINT_API_KEY := None;
     Index.OSINT_JWT_TOKEN := None |}.

(** A tool call of that process on that platform, and what is shown of
    a request in the examples. *)
Definition call (name : string) (args : Bag)
  : Async CallToolResult :=
  Index.callTool (H:=text_platform) unconfigured
    {| params_name := name; params_arguments := args |}.

Definition shown (r : Request) : Method * string * list (string * string) :=
  (req_method r, req_url r, req_query r).

(** The result of a tool call: one text block, and the error flag. *)
Definition text_result (text : string) (isError : option bool)
  : CallToolResult :=
  {| content := [{| block_type := "text"; block_text := text |}];
     isError := isError |}.

(** The field of the argument bag that a query key is read from: the
    field of the same name, but for [q], which is read from [query]. *)
Definition read_from (key field : string) : Prop :=
  key = field ∨ (key = "q" ∧ field = "query").

(** The [Authorization] header that the process environment asks for. *)
Definition bearer_of (env : Index.Env) : option string :=
  match ApiClient.when_set (Index.OSINT_JWT_TOKEN env) with
  | Some jwt => Some ("Bearer " +:+ jwt)
  | None =>
      match ApiClient.when_set (Index.OSINT_API_KEY env) with
      | Some key => Some ("Bearer " +:+ key)
      | None => None
      end
  end.

(** The tool descriptors and the prompt descriptor of the sample calls. *)
Definition get_message_tool : Tool :=
  {| name := "get_message";
     properties := [("message_id", PNumber)];
     required := ["message_id"] |}.

Definition investigate_entity_prompt : Prompts.Prompt :=
  {| Prompts.prompt_name := "investigate_entity";
     Prompts.arguments := [("entity_name", true); ("entity_type", false)] |}.

End Vocabulary.

(** * Properties *)

(** ** The [switch] *)

Section Switch.
Context {A : Type}.
Implicit Types (cases : list (string * A)) (default : A) (name : string).

Lemma switch_default name cases default :
  name ∉ cases.*1 → switch name cases default = default.
Proof.
  unfold switch. induction cases as [|[label a] cases IH]; [done|].
  cbn. intros Hnotin. destruct (String.eqb_spec name label) as [->|_].
  - destruct Hnotin. left.
  - apply IH. intros Hin. apply Hnotin. by right.
Qed.

Lemma switch_case name cases default :
  name ∈ cases.*1 → ∃ a, (name, a) ∈ cases ∧ switch name cases default = a.
Proof.
  unfold switch. induction cases as [|[label a] cases IH]; cbn.
  - intros Hin. by apply elem_of_nil in Hin.
  - intros Hin. destruct (String.eqb_spec name label) as [->|Hne].
    + exists a. split; [left|done].
    + apply elem_of_cons in Hin as [?|Hin]; [done|].
      destruct (IH Hin) as (b & Hb & Heq). exists b. split; [by right|done].
Qed.

(** With distinct labels, the [switch] at the label of a case takes that
    case. *)
Lemma switch_lookup cases (i : nat) c default :
  NoDup cases.*1 → cases !! i = Some c → switch (fst c) cases default = snd c.
Proof.
  unfold switch. revert i.
  induction cases as [|c0 cases IH]; intros i Hnodup Hc; [done|].
  rewrite fmap_cons in Hnodup. apply NoDup_cons in Hnodup as [Hfresh Hnodup].
  cbn. destruct i as [|i]; cbn in Hc.
  - injection Hc as ->. by rewrite String.eqb_refl.
  - destruct (String.eqb_spec (fst c) (fst c0)) as [Heq|_].
    + destruct Hfresh. rewrite <- Heq.
      apply list_elem_of_fmap_2. by apply list_elem_of_lookup_2 in Hc.
    + by apply (IH i).
Qed.

End Switch.

(** When the cases stand in the order of a list of descriptors with
    distinct keys, the [switch] at the key of a descriptor takes the case
    at the position of the descriptor. *)
Lemma switch_zip {T A : Type} (key : T → string) (P : T → A → Prop)
    (ts : list T) (cases : list (string * A)) (default : A) :
  NoDup (key <$> ts) →
  Forall2 (fun t c => key t = fst c ∧ P t (snd c)) ts cases →
  ∀ t, t ∈ ts → P t (switch (key t) cases default).
Proof.
  intros Hnodup Hzip.
  induction Hzip as [|t0 c0 ts cases [Hkey HP] Hzip IH]; intros t Ht.
  - by apply elem_of_nil in Ht.
  - rewrite fmap_cons in Hnodup. apply NoDup_cons in Hnodup as [Hfresh Hnodup].
    unfold switch; cbn.
    destruct (String.eqb_spec (key t) (fst c0)) as [Heq|Hne]; cbn.
    + apply elem_of_cons in Ht as [->|Ht]; [done|].
      destruct Hfresh. rewrite Hkey, <- Heq. by apply list_elem_of_fmap_2.
    + apply elem_of_cons in Ht as [->|Ht]; [done|].
      by apply IH.
Qed.

(** ** The catalog and the dispatcher *)

Section Catalog.
Import Mcp.

Lemma unique_position {X : Type} (f : X → string) (l : list X) (s : string) :
  NoDup (f <$> l) → s ∈ f <$> l →
  ∃ i x, l !! i = Some x ∧ f x = s
         ∧ ∀ i' x', l !! i' = Some x' → f x' = s → i' = i.
Proof.
  intros Hnodup Hin.
  apply list_elem_of_lookup in Hin as [i Hi].
  rewrite list_lookup_fmap in Hi.
  destruct (l !! i) as [x|] eqn:Hx; [|done]. injection Hi as <-.
  exists i, x. do 2 (split; [done|]).
  intros i' x' Hx' Hfx'.
  apply (NoDup_lookup _ _ _ (f x) Hnodup).
  - rewrite list_lookup_fmap, Hx'. cbn. by rewrite Hfx'.
  - by rewrite list_lookup_fmap, Hx.
Qed.

Lemma same_names_bijection {A : Type} (tools : list Tool)
    (cases : list (string * A)) :
  name <$> tools = cases.*1 → NoDup (name <$> tools) →
  catalog_dispatcher_bijection tools cases.
Proof.
  intros Hsame Hnodup. split; [|split].
  - intros t Ht.
    destruct (unique_position fst cases (name t)) as (i & c & Hc & Hname & Hi).
    + by rewrite <- Hsame.
    + rewrite <- Hsame. by apply list_elem_of_fmap_2.
    + exists i, c. do 2 (split; [done|]). split; [|done].
      intros default. rewrite <- Hname. apply (switch_lookup _ i).
      * by rewrite <- Hsame.
      * done.
  - intros c Hc.
    destruct (unique_position name tools (fst c)) as (j & t & Ht & Hname & Hj).
    + done.
    + rewrite Hsame. by apply list_elem_of_fmap_2.
    + by exists j, t.
  - intros n default Hn. apply switch_default. by rewrite <- Hsame.
Qed.

Lemma tools_NoDup : NoDup (name <$> Index.tools).
Proof. apply (bool_decide_unpack _). by vm_compute. Qed.

Lemma V1_tools_NoDup : NoDup (name <$> V1.Index.tools).
Proof. apply (bool_decide_unpack _). by vm_compute. Qed.

Lemma case_labels `{Platform} env :
  (Index.handleToolCall_cases env).*1 = name <$> Index.tools.
Proof. reflexivity. Qed.

Lemma V1_case_labels `{Platform} env :
  (V1.Index.handleToolCall_cases env).*1 = name <$> V1.Index.tools.
Proof. reflexivity. Qed.

(** The [switch] of the dispatcher takes the case of every tool name and
    the default at every other name. *)
Lemma switch_dispatches `{Platform} (tools : list Tool)
    (cases : list (string * (Bag → Async Json))) :
  name <$> tools = cases.*1 → NoDup (name <$> tools) →
  dispatches_the_catalog tools cases
    (fun name args =>
       switch name cases (fun _ => throw ("Unknown tool: " +:+ name)) args).
Proof.
  intros Hsame Hnodup.
  destruct (same_names_bijection tools cases Hsame Hnodup)
    as (Htools & Hcases & Hdefault).
  split; [|split].
  - intros t Ht. destruct (Htools t Ht) as (i & c & Hc & Hname & Hswitch & Hi).
    exists i, c. do 2 (split; [done|]). split; [|done].
    intros args. by rewrite Hswitch.
  - done.
  - intros n args Hn. by rewrite Hdefault.
Qed.

(** C1. The tool catalog and the dispatcher are in bijection: every tool
    name of the [tools] array has exactly one case of [handleToolCall],
    and [handleToolCall] at that name is the binding of that case; every
    case label is the name of exactly one tool descriptor; and
    [handleToolCall] refuses every other name. This holds of the server
    and of its earlier revision. *)
Theorem catalog_dispatcher_in_bijection `{Platform} (env : Index.Env) :
  dispatches_the_catalog Index.tools (Index.handleToolCall_cases env)
    (Index.handleToolCall env)
  ∧ dispatches_the_catalog V1.Index.tools (V1.Index.handleToolCall_cases env)
      (V1.Index.handleToolCall env).
Proof.
  split.
  - apply (switch_dispatches Index.tools (Index.handleToolCall_cases env)).
    + symmetry. apply case_labels.
    + apply tools_NoDup.
  - apply (switch_dispatches V1.Index.tools
             (V1.Index.handleToolCall_cases env)).
    + symmetry. apply V1_case_labels.
    + apply V1_tools_NoDup.
Qed.

End Catalog.

(** ** The API client *)

Section Construction.
Import ApiClient.

Lemma when_set_Some o s : when_set o = Some s ↔ is_set o s.
Proof.
  unfold when_set, is_set, truthy. destruct o as [s'|].
  - destruct (String.eqb_spec s' "") as [->|Hne]; cbn.
    + split; [done|]. by intros [[= <-] ?].
    + split; [by intros [= <-]|]. by intros [[= <-] _].
  - split; [done|]. by intros [? _].
Qed.

Lemma when_set_None o : when_set o = None ↔ unset o.
Proof.
  unfold when_set, unset. destruct (truthy o) eqn:Ho; [|done].
  destruct o; [|done]. split; discriminate.
Qed.

(** C2, for the constructor that has the identity-proxy fields. The
    header set computed by the constructor follows a strict
    precedence: a set [jwtToken] gives [Authorization: Bearer <jwtToken>];
    else a set [apiKey] gives [Authorization: Bearer <apiKey>]; else a set
    identity-proxy user id gives [X-User-ID], with [X-User-Email] and
    [X-User-Role] present exactly when they are set, and no
    [Authorization]; and when none is set the headers are the two JSON
    headers, none of which authenticates. *)
Theorem auth_header_precedence (config : ApiClientConfig) :
  let headers := this_headers (new_OsintApiClient config) in
  (∀ jwt, is_set (jwtToken config) jwt →
     headers = <["Authorization" := "Bearer " +:+ jwt]> json_headers)
  ∧ (unset (jwtToken config) → ∀ key, is_set (apiKey config) key →
     headers = <["Authorization" := "Bearer " +:+ key]> json_headers)
  ∧ (unset (jwtToken config) → unset (apiKey config) →
     ∀ uid, is_set (oryUserId config) uid →
     headers !! "Authorization" = None
     ∧ headers !! "X-User-ID" = Some uid
     ∧ headers !! "X-User-Email" = when_set (oryUserEmail config)
     ∧ headers !! "X-User-Role" = when_set (oryUserRole config)
     ∧ ∀ h, h ∉ ["X-User-ID"; "X-User-Email"; "X-User-Role"] →
            headers !! h = json_headers !! h)
  ∧ (unset (jwtToken config) → unset (apiKey config) →
     unset (oryUserId config) → headers = json_headers)
  ∧ json_headers !! "Authorization" = None
  ∧ json_headers !! "X-User-ID" = None
  ∧ json_headers !! "X-User-Email" = None
  ∧ json_headers !! "X-User-Role" = None.
Proof.
  cbn. split; [|split; [|split; [|split]]].
  - intros jwt Hjwt%when_set_Some. by rewrite Hjwt.
  - intros Hjwt%when_set_None key Hkey%when_set_Some. by rewrite Hjwt, Hkey.
  - intros Hjwt%when_set_None Hkey%when_set_None uid Huid%when_set_Some.
    rewrite Hjwt, Hkey, Huid. unfold json_headers.
    destruct (when_set (oryUserEmail config)), (when_set (oryUserRole config));
      repeat split; try by simplify_map_eq.
    all: intros h Hh.
    all: assert (h ≠ "X-User-ID" ∧ h ≠ "X-User-Email" ∧ h ≠ "X-User-Role")
           as (? & ? & ?) by set_solver.
    all: by rewrite ?lookup_insert_ne by done.
  - intros Hjwt%when_set_None Hkey%when_set_None Huid%when_set_None.
    by rewrite Hjwt, Hkey, Huid.
  - done.
Qed.

(** The precedence on sample configurations. An empty string counts as
    not set, as for every [if (config.x)]. *)
Example jwt_token_wins :
  this_headers (new_OsintApiClient
    {| baseUrl := "https://api.osint.example.com/";
       apiKey := Some "ak_abc123"; jwtToken := Some "eyJ0";
       oryUserId := Some "7f1c"; oryUserEmail := None;
       oryUserRole := None |})
  = <["Authorization" := "Bearer eyJ0"]> json_headers.
Proof. reflexivity. Qed.

Example empty_jwt_token_falls_through :
  this_headers (new_OsintApiClient
    {| baseUrl := "https://api.osint.example.com/";
       apiKey := Some "ak_abc123"; jwtToken := Some "";
       oryUserId := None; oryUserEmail := None; oryUserRole := None |})
  = <["Authorization" := "Bearer ak_abc123"]> json_headers.
Proof. reflexivity. Qed.

Example identity_proxy_headers :
  this_headers (new_OsintApiClient
    {| baseUrl := "https://api.osint.example.com/";
       apiKey := None; jwtToken := None;
       oryUserId := Some "7f1c"; oryUserEmail := None;
       oryUserRole := Some "admin" |})
  = <["X-User-Role" := "admin"]> (<["X-User-ID" := "7f1c"]> json_headers).
Proof. reflexivity. Qed.

Example base_url_is_normalized :
  this_baseUrl (new_OsintApiClient
    {| baseUrl := "https://api.osint.example.com/";
       apiKey := None; jwtToken := None;
       oryUserId := None; oryUserEmail := None; oryUserRole := None |})
  = "https://api.osint.example.com".
Proof. reflexivity. Qed.

End Construction.

Section Client.
Import ApiClient.
Context `{Platform}.

Lemma ok_false status : ok status = false ↔ non_2xx status.
Proof. unfold ok, non_2xx. rewrite andb_false_iff, !Z.leb_gt. lia. Qed.

Lemma get_run self endpoint params remote :
  get self endpoint params remote =
    match remote (get_request self endpoint params) with
    | Responded status text =>
        (if ok status then completion (response_json text) remote
         else Throw (api_error status text),
         [get_request self endpoint params])
    | Rejected message => (Throw message, [get_request self endpoint params])
    end.
Proof.
  unfold get, bind, fetch, get_request, completion.
  destruct params as [params|]; cbn;
    (destruct (remote _) as [status text|message]; [|done]);
    unfold response_json, api_error;
    destruct (ok status); cbn; try done;
    by destruct (JSON_parse text).
Qed.

Lemma post_run self endpoint body remote :
  post self endpoint body remote =
    match remote (post_request self endpoint body) with
    | Responded status text =>
        (if ok status then completion (response_json text) remote
         else Throw (api_error status text),
         [post_request self endpoint body])
    | Rejected message => (Throw message, [post_request self endpoint body])
    end.
Proof.
  unfold post, bind, fetch, post_request, completion.
  destruct body as [body|]; cbn;
    (destruct (remote _) as [status text|message]; [|done]);
    unfold response_json, api_error;
    destruct (ok status); cbn; try done;
    by destruct (JSON_parse text).
Qed.

(** The requests of [get] and [post] in the embedding: the one [fetch]
    of each, whatever the remote platform answers. *)
Lemma get_issued self endpoint params remote :
  issued (get self endpoint params) remote = [get_request self endpoint params].
Proof. unfold issued. rewrite get_run. by destruct (remote _). Qed.

Lemma post_issued self endpoint body remote :
  issued (post self endpoint body) remote = [post_request self endpoint body].
Proof. unfold issued. rewrite post_run. by destruct (remote _). Qed.

(** C4. A [get] or [post] call whose response has a status [s] outside
    the 2xx range and the body text [b] throws an error whose message is
    exactly [API Error <s>: <b>]. *)
Theorem api_error_on_non_2xx self endpoint params body remote status text :
  non_2xx status →
  (remote (get_request self endpoint params) = Responded status text →
   completion (get self endpoint params) remote
   = Throw ("API Error " +:+ pretty status +:+ ": " +:+ text))
  ∧ (remote (post_request self endpoint body) = Responded status text →
     completion (post self endpoint body) remote
     = Throw ("API Error " +:+ pretty status +:+ ": " +:+ text)).
Proof.
  intros Hstatus%ok_false. split; intros Hresponse; unfold completion.
  - by rewrite get_run, Hresponse, Hstatus.
  - by rewrite post_run, Hresponse, Hstatus.
Qed.

Lemma append_params_omap params searchParams :
  append_params params searchParams
  = (searchParams ++ omap query_entry params)%list.
Proof.
  unfold append_params.
  revert searchParams. induction params as [|[key value] params IH];
    intros searchParams; cbn.
  - by rewrite app_nil_r.
  - rewrite IH. unfold query_entry; cbn. destruct (defined value); [|done].
    by rewrite <- app_assoc.
Qed.

Lemma defined_iff value : defined value = true ↔ value ≠ VUndefined ∧ value ≠ VNull.
Proof. destruct value; cbn; split; try done; intros [? ?]; done. Qed.


End Client.

(** The failing call of the specification: a 404 with the body
    [not found]. *)
Lemma api_error_on_non_2xx_witness :
  let self := ApiClient.new_OsintApiClient
    {| ApiClient.baseUrl := "http://localhost:8000/";
       ApiClient.apiKey := None; ApiClient.jwtToken := None;
       ApiClient.oryUserId := None; ApiClient.oryUserEmail := None;
       ApiClient.oryUserRole := None |} in
  let remote := fun _ => Responded 404 "not found" in
  non_2xx 404
  ∧ completion (ApiClient.get (H:=text_platform) self "/health" None) remote
    = Throw "API Error 404: not found"
  ∧ completion (ApiClient.post (H:=text_platform) self "/health" None) remote
    = Throw "API Error 404: not found".
Proof.
  intros self remote.
  assert (non_2xx 404) as Hstatus by (unfold non_2xx; lia).
  split; [exact Hstatus|].
  destruct (api_error_on_non_2xx (H:=text_platform) self "/health" None None
              remote 404 "not found" Hstatus) as [Hget Hpost].
  split; [exact (Hget eq_refl)|exact (Hpost eq_refl)].
Defined.

(** ** The dispatcher and the call-tool handler *)

Section Dispatcher.
Import ApiClient Mcp Index.
Context `{Platform} (env : Env).




Lemma handleToolCall_unknown name args :
  name ∉ (handleToolCall_cases env).*1 →
  handleToolCall env name args = throw ("Unknown tool: " +:+ name).
Proof. intros Hnotin. unfold handleToolCall. by rewrite switch_default. Qed.

(** C3. For a tool name that the dispatcher does not know, and every
    argument bag, the call-tool handler returns (it does not throw) a
    result whose content is the single text block
    [Error: Unknown tool: <name>], with [isError] set; nothing is sent
    to the remote platform. *)
Theorem unknown_tool_is_reported_in_band name args remote :
  name ∉ (handleToolCall_cases env).*1 →
  callTool env {| params_name := name; params_arguments := args |} remote
  = (Return {| content := [{| block_type := "text";
                             block_text := "Error: Unknown tool: " +:+ name |}];
               isError := Some true |}, []).
Proof.
  intros Hnotin. unfold callTool; cbn.
  by rewrite (handleToolCall_unknown _ _ Hnotin).
Qed.

(** The handlers of [callTool] only wrap the outcome: the requests of a
    tool call are those of [handleToolCall]. *)
Lemma callTool_issued name args remote :
  issued (callTool env {| params_name := name; params_arguments := args |})
    remote
  = issued (handleToolCall env name args) remote.
Proof.
  unfold callTool, issued, try_catch, bind, ret; cbn.
  destruct (handleToolCall env name args remote) as [[result|message] l]; cbn;
    by rewrite app_nil_r.
Qed.

(** The call-tool handler never throws. *)
Lemma callTool_returns request remote :
  ∃ result, completion (callTool env request) remote = Return result.
Proof.
  unfold callTool, completion, try_catch, bind, ret; cbn.
  destruct (handleToolCall env _ _ remote) as [[result|message] l]; cbn; eauto.
Qed.




(** Every binding but that of [get_message_timeline] reads from the
    argument bag only fields that the schema of its tool declares. *)
Lemma bindings_and_schemas :
  Forall2 (fun t c =>
             name t = fst c
             ∧ (name t ≠ "get_message_timeline" →
                ∀ args1 args2, agree_on (declared t) args1 args2 →
                               snd c args1 = snd c args2))
          tools (handleToolCall_cases env).
Proof.
  unfold tools, handleToolCall_cases.
  repeat (apply Forall2_cons; split; [split; [reflexivity|]|]);
    [..|constructor].
  all: intros Hne args1 args2 Hagree; cbn [fst snd name] in *.
  all: try done.
  all: repeat match goal with
         | Hagree : agree_on _ ?args _ |- context [prop ?args ?field] =>
             rewrite (Hagree field) by (by apply (bool_decide_unpack _))
         end.
  all: reflexivity.
Qed.

Lemma tools_read_declared_fields t args1 args2 :
  t ∈ tools → name t ≠ "get_message_timeline" →
  agree_on (declared t) args1 args2 →
  handleToolCall env (name t) args1 = handleToolCall env (name t) args2.
Proof.
  intros Ht Hne Hagree. unfold handleToolCall.
  by apply (switch_zip name
              (fun t binding =>
                 name t ≠ "get_message_timeline" →
                 ∀ args1 args2, agree_on (declared t) args1 args2 →
                                binding args1 = binding args2)
              tools (handleToolCall_cases env) _
              tools_NoDup bindings_and_schemas t Ht Hne).
Qed.

Lemma handleToolCall_get_message_timeline args :
  handleToolCall env "get_message_timeline" args
  = getMessageTimeline (apiClient env) args.["message_id"]
      (Some [("before_count", args.["before_count"]);
             ("after_count", args.["after_count"]);
             ("same_channel_only", args.["same_channel_only"]);
             ("use_semantic", args.["use_semantic"]);
             ("use_events", args.["use_events"]);
             ("similarity_threshold", args.["similarity_threshold"])]).
Proof. reflexivity. Qed.

(** C9, at the binding that breaks it. The schema of
    [get_message_timeline] does not declare [similarity_threshold], yet
    its binding reads that field: two argument bags that agree on every
    declared field, the second with [similarity_threshold: 1] added, are
    sent with different query strings. *)
Theorem timeline_binding_reads_undeclared_field remote :
  let args1 : Bag := {["message_id" := VNum 1]} in
  let args2 : Bag := <["similarity_threshold" := VNum 1]> args1 in
  ∃ t, t ∈ tools
    ∧ name t = "get_message_timeline"
    ∧ ("similarity_threshold" ∉ declared t)
    ∧ agree_on (declared t) args1 args2
    ∧ req_query <$> issued (handleToolCall env (name t) args1) remote
      = [[]]
    ∧ req_query <$> issued (handleToolCall env (name t) args2) remote
      = [[("similarity_threshold", "1")]].
Proof.
  intros args1 args2. eexists.
  split; [apply list_elem_of_lookup; by exists 4%nat|]. cbn [name].
  split; [done|].
  assert ("similarity_threshold" ∉
            declared {| name := "get_message_timeline";
                        properties :=
                          [("message_id", PNumber); ("before_count", PNumber);
                           ("after_count", PNumber);
                           ("same_channel_only", PBoolean);
                           ("use_semantic", PBoolean);
                           ("use_events", PBoolean)];
                        required := ["message_id"] |}) as Hundeclared
    by (by apply (bool_decide_unpack _)).
  split; [exact Hundeclared|]. split.
  - intros field Hfield. unfold prop, args2.
    rewrite lookup_insert_ne; [done|]. by intros <-.
  - rewrite !handleToolCall_get_message_timeline.
    unfold getMessageTimeline. by rewrite !get_issued.
Qed.

End Dispatcher.

(** The undefined tool of the specification. *)
Lemma unknown_tool_is_reported_in_band_witness :
  let remote := fun _ => Rejected "fetch failed" in
  ("frobnicate"
     ∉ (Index.handleToolCall_cases (H:=text_platform) unconfigured).*1)
  ∧ Index.callTool (H:=text_platform) unconfigured
      {| Mcp.params_name := "frobnicate"; Mcp.params_arguments := ∅ |} remote
    = (Return {| Mcp.content :=
                   [{| Mcp.block_type := "text";
                       Mcp.block_text := "Error: Unknown tool: frobnicate" |}];
                 Mcp.isError := Some true |}, []).
Proof.
  intros remote.
  assert ("frobnicate"
            ∉ (Index.handleToolCall_cases (H:=text_platform) unconfigured).*1)
    as Hunknown by (by apply (bool_decide_unpack _); vm_compute).
  split; [exact Hunknown|].
  exact (unknown_tool_is_reported_in_band (H:=text_platform) unconfigured
           "frobnicate" ∅ remote Hunknown).
Defined.


(** The scenarios of the specification, run on a platform that keeps
    JSON values as text, with no variable of the environment set. *)
Section Scenarios.
Import Mcp.

Example system_health_scenario :
  let remote := fun _ => Responded 200 "{}" in
  completion (call "get_system_health" ∅) remote
  = Return {| content := [{| block_type := "text"; block_text := "{}" |}];
              isError := None |}
  ∧ shown <$> issued (call "get_system_health" ∅) remote
    = [(GET, "http://localhost:8000/health", [])].
Proof. by vm_compute. Qed.

Example search_messages_scenario :
  let args : Bag := <["query" := VStr "Bakhmut"]> {["days" := VNum 7]} in
  shown <$> issued (call "search_messages" args) (fun _ => Responded 200 "{}")
  = [(GET, "http://localhost:8000/api/messages",
      [("q", "Bakhmut"); ("days", "7")])].
Proof. by vm_compute. Qed.

Example not_found_scenario :
  completion (call "get_message" {["message_id" := VNum 5]})
    (fun _ => Responded 404 "not found")
  = Return {| content :=
                [{| block_type := "text";
                    block_text := "Error: API Error 404: not found" |}];
              isError := Some true |}.
Proof. by vm_compute. Qed.

Example connection_refused_scenario :
  completion (call "get_message" {["message_id" := VNum 5]})
    (fun _ => Rejected "fetch failed")
  = Return {| content :=
                [{| block_type := "text";
                    block_text := "Error: fetch failed" |}];
              isError := Some true |}.
Proof. by vm_compute. Qed.

Example untyped_arguments_are_stringified :
  ToString (VArray [VNum 1; VNull; VArray [VStr "a"; VBool true]; VObject []])
  = "1,,a,true,[object Object]".
Proof. reflexivity. Qed.

(** On the empty argument bag the tools go to pairwise distinct URLs. *)
Example tools_have_distinct_endpoints :
  NoDup ((fun t => req_url <$> issued (call (name t) ∅)
                                (fun _ => Rejected "fetch failed"))
         <$> Index.tools).
Proof. apply (bool_decide_unpack _). by vm_compute. Qed.

End Scenarios.

(** ** The request handlers of the server *)

Section Handlers.
Import Mcp.
Context `{Platform} (env : Index.Env).

Lemma server_handlers schema :
  serves (Index.server env) schema
  ↔ schema = ListToolsRequestSchema ∨ schema = CallToolRequestSchema.
Proof.
  unfold serves, handler_of. destruct schema; cbn; split;
    try (intros [? [=]]); try (intros [[=]|[=]]); eauto.
Qed.

Lemma V1_server_handlers schema :
  serves (V1.Index.server env) schema
  ↔ schema = ListToolsRequestSchema ∨ schema = CallToolRequestSchema.
Proof.
  unfold serves, handler_of. destruct schema; cbn; split;
    try (intros [? [=]]); try (intros [[=]|[=]]); eauto.
Qed.

(** C6, as the code has it. The server sets request handlers for exactly
    two kinds of request, listing the tools and calling a tool, and
    declares the tools capability only: it has no handler that lists or
    reads resources, or lists or gets prompts. The list handler answers
    the catalog. The same holds of the earlier revision. *)
Theorem server_serves_tools_only :
  (∀ schema, serves (Index.server env) schema
             ↔ schema = ListToolsRequestSchema
               ∨ schema = CallToolRequestSchema)
  ∧ capabilities (Index.server env) = ["tools"]
  ∧ handler_of (Index.server env) ListToolsRequestSchema
    = Some (ListToolsHandler (ret Index.tools))
  ∧ handler_of (Index.server env) CallToolRequestSchema
    = Some (CallToolHandler (Index.callTool env))
  ∧ (∀ schema, serves (V1.Index.server env) schema
               ↔ schema = ListToolsRequestSchema
                 ∨ schema = CallToolRequestSchema)
  ∧ capabilities (V1.Index.server env) = ["tools"].
Proof.
  split; [apply server_handlers|]. do 3 (split; [done|]).
  split; [apply V1_server_handlers|done].
Qed.

End Handlers.

(** The claim that the server serves the resource and prompt tables
    fails: no process environment gives a server with the four handlers
    that it would take. *)
Lemma resources_and_prompts_are_not_served :
  ¬ ∃ (P : Platform) (env : Index.Env),
      serves (Index.server (H:=P) env) Mcp.ListResourcesRequestSchema
      ∧ serves (Index.server (H:=P) env) Mcp.ReadResourceRequestSchema
      ∧ serves (Index.server (H:=P) env) Mcp.ListPromptsRequestSchema
      ∧ serves (Index.server (H:=P) env) Mcp.GetPromptRequestSchema.
Proof.
  intros (P & env & Hlist & _).
  apply server_handlers in Hlist as [Hlist|Hlist]; discriminate Hlist.
Qed.


(** ** The prompts *)

Section PromptContent.
Import Prompts.

(** The keys that the templates read are the arguments that the prompt
    descriptors declare. *)
Lemma referenced_keys_declared :
  Forall (fun p => referenced_keys (prompt_name p) = (arguments p).*1) prompts.
Proof. repeat constructor. Qed.

(** Every one of them is read: changing it alone changes the text. *)
Lemma referenced_keys_matter :
  Forall (fun p =>
            Forall (fun key =>
                      getPromptContent (prompt_name p) {[key := "a"]}
                      ≠ getPromptContent (prompt_name p) {[key := "b"]})
                   (referenced_keys (prompt_name p)))
         prompts.
Proof. apply (bool_decide_unpack _). by vm_compute. Qed.

Lemma prompt_names : prompt_name <$> prompts
  = ["investigate_entity"; "validate_claim"; "track_event"; "analyze_channel";
     "trace_narrative"; "daily_briefing"; "geographic_sitrep";
     "platform_health_check"; "find_viral_content"; "discover_connections"].
Proof. reflexivity. Qed.

(** Rewrites every read of [args1] in the goal into the read of [args2],
    by the agreement on the keys of the prompt. *)
Ltac by_agreement Hagree args1 :=
  repeat match goal with
    | |- context [args1 !! ?key] =>
        rewrite (Hagree key) by (by apply (bool_decide_unpack _))
    end;
  reflexivity.

(** C10. The text of a prompt depends only on the argument keys that its
    template references: two argument records that agree on these keys
    expand to the same text, whatever other keys they hold. *)
Theorem prompt_depends_on_referenced_keys name (args1 args2 : gmap string string) :
  (∀ key, key ∈ referenced_keys name → args1 !! key = args2 !! key) →
  getPromptContent name args1 = getPromptContent name args2.
Proof.
  intros Hagree.
  destruct (decide (name ∈ prompt_name <$> prompts)) as [Hin|Hnotin].
  - rewrite prompt_names in Hin.
    repeat (apply elem_of_cons in Hin as [->|Hin]); [..|by apply elem_of_nil in Hin].
    + change (investigate_entity args1 = investigate_entity args2).
      unfold investigate_entity. by_agreement Hagree args1.
    + change (validate_claim args1 = validate_claim args2).
      unfold validate_claim. by_agreement Hagree args1.
    + change (track_event args1 = track_event args2).
      unfold track_event. by_agreement Hagree args1.
    + change (analyze_channel args1 = analyze_channel args2).
      unfold analyze_channel. by_agreement Hagree args1.
    + change (trace_narrative args1 = trace_narrative args2).
      unfold trace_narrative. by_agreement Hagree args1.
    + change (daily_briefing args1 = daily_briefing args2).
      unfold daily_briefing. by_agreement Hagree args1.
    + change (geographic_sitrep args1 = geographic_sitrep args2).
      unfold geographic_sitrep. by_agreement Hagree args1.
    + reflexivity.
    + change (find_viral_content args1 = find_viral_content args2).
      unfold find_viral_content. by_agreement Hagree args1.
    + change (discover_connections args1 = discover_connections args2).
      unfold discover_connections. by_agreement Hagree args1.
  - unfold getPromptContent. by rewrite !switch_default.
Qed.

(** An unknown prompt name is answered, not refused; a missing argument
    reads as [undefined], or gives way to a default. *)
Example unknown_prompt :
  getPromptContent "weekly_digest" {["hours" := "48"]}
  = "Unknown prompt: weekly_digest".
Proof. reflexivity. Qed.

Example missing_arguments :
  let none : gmap string string := ∅ in
  let empty : gmap string string := {["hours" := ""]} in
  let two_days : gmap string string := {["hours" := "48"]} in
  interpolate (none !! "entity_name") = "undefined"
  ∧ or_default (none !! "hours") 24 = "24"
  ∧ or_default (empty !! "hours") 24 = "24"
  ∧ or_default (two_days !! "hours") 24 = "48".
Proof. by vm_compute. Qed.

End PromptContent.

(** An entity investigation, with and without an unrelated key. *)
Lemma prompt_depends_on_referenced_keys_witness :
  let args1 : gmap string string := {["entity_name" := "Wagner Group"]} in
  let args2 : gmap string string := <["channel_id" := "42"]> args1 in
  (∀ key, key ∈ Prompts.referenced_keys "investigate_entity" →
          args1 !! key = args2 !! key)
  ∧ Prompts.getPromptContent "investigate_entity" args1
    = Prompts.getPromptContent "investigate_entity" args2.
Proof.
  intros args1 args2.
  assert (∀ key, key ∈ Prompts.referenced_keys "investigate_entity" →
                 args1 !! key = args2 !! key) as Hagree.
  { intros key Hkey. apply list_elem_of_In in Hkey. vm_compute in Hkey.
    destruct Hkey as [<-|[<-|[]]]; reflexivity. }
  split; [exact Hagree|].
  exact (prompt_depends_on_referenced_keys "investigate_entity" args1 args2
           Hagree).
Defined.

(** ** The earlier revision *)

Section EarlierRevision.
Import V1.ApiClient Mcp V1.Index.
Context `{Platform} (env : Index.Env).

(** X21. The constructor of the earlier revision knows no
    identity-proxy fields and sends the API key in a header of its own,
    [X-API-Key], never as [Authorization]. *)
Lemma V1_auth_headers (config : ApiClientConfig) :
  let headers := this_headers (new_OsintApiClient config) in
  (∀ jwt, is_set (jwtToken config) jwt →
     headers = <["Authorization" := "Bearer " +:+ jwt]> json_headers)
  ∧ (unset (jwtToken config) → ∀ key, is_set (apiKey config) key →
     headers = <["X-API-Key" := key]> json_headers
     ∧ headers !! "Authorization" = None)
  ∧ (unset (jwtToken config) → unset (apiKey config) →
     headers = json_headers).
Proof.
  cbn. split; [|split].
  - intros jwt Hjwt%when_set_Some. by rewrite Hjwt.
  - intros Hjwt%when_set_None key Hkey%when_set_Some. by rewrite Hjwt, Hkey.
  - intros Hjwt%when_set_None Hkey%when_set_None. by rewrite Hjwt, Hkey.
Qed.

Lemma V1_get_run self endpoint params remote :
  get self endpoint params remote =
    match remote (V1_get_request self endpoint params) with
    | Responded status text =>
        (if ok status then completion (ApiClient.response_json text) remote
         else Throw (api_error status text),
         [V1_get_request self endpoint params])
    | Rejected message =>
        (Throw message, [V1_get_request self endpoint params])
    end.
Proof.
  unfold get, bind, fetch, V1_get_request, completion.
  destruct params as [params|]; cbn;
    (destruct (remote _) as [status text|message]; [|done]);
    unfold ApiClient.response_json, api_error;
    destruct (ok status); cbn; try done;
    by destruct (JSON_parse text).
Qed.

Lemma V1_get_issued self endpoint params remote :
  issued (get self endpoint params) remote
  = [V1_get_request self endpoint params].
Proof. unfold issued. rewrite V1_get_run. by destruct (remote _). Qed.

(** The error of a response outside the 2xx range is the same. *)
Lemma V1_api_error_on_non_2xx self endpoint params remote status text :
  non_2xx status →
  remote (V1_get_request self endpoint params) = Responded status text →
  completion (get self endpoint params) remote
  = Throw ("API Error " +:+ pretty status +:+ ": " +:+ text).
Proof.
  intros Hstatus%ok_false Hresponse. unfold completion.
  by rewrite V1_get_run, Hresponse, Hstatus.
Qed.

(** The query string is built in the same way. *)
Lemma V1_query_string self endpoint params remote :
  req_query <$> issued (get self endpoint (Some params)) remote
  = [omap query_entry params].
Proof.
  rewrite V1_get_issued. cbn. by rewrite append_params_omap.
Qed.

(** [get_entity] of the earlier revision takes the entity id alone. *)
Lemma V1_get_entity args remote :
  req_url <$> issued (handleToolCall env "get_entity" args) remote
  = [this_baseUrl (apiClient env)
     +:+ "/api/entities/" +:+ ToString args.["entity_id"]].
Proof.
  change (handleToolCall env "get_entity" args)
    with (getEntity (apiClient env) args.["entity_id"]).
  unfold getEntity. by rewrite V1_get_issued.
Qed.

(** Every binding of the earlier revision reads declared fields only. *)
Lemma V1_bindings_and_schemas :
  Forall2 (fun t c =>
             name t = fst c
             ∧ ∀ args1 args2, agree_on (declared t) args1 args2 →
                              snd c args1 = snd c args2)
          tools (handleToolCall_cases env).
Proof.
  unfold tools, handleToolCall_cases.
  repeat (apply Forall2_cons; split; [split; [reflexivity|]|]);
    [..|constructor].
  all: intros args1 args2 Hagree; cbn [fst snd name] in *.
  all: try done.
  all: repeat match goal with
         | Hagree : agree_on _ ?args _ |- context [prop ?args ?field] =>
             rewrite (Hagree field) by (by apply (bool_decide_unpack _))
         end.
  all: reflexivity.
Qed.

End EarlierRevision.

(** The precedence fails for the constructor of the earlier revision: a
    set API key, with no JWT token, is not sent as a bearer token but in
    the header [X-API-Key], and no [Authorization] header is present. *)
Lemma V1_api_key_is_not_a_bearer_token :
  let config :=
    {| V1.ApiClient.baseUrl := "http://localhost:8000";
       V1.ApiClient.apiKey := Some "ak_abc123";
       V1.ApiClient.jwtToken := None |} in
  let headers :=
    V1.ApiClient.this_headers (V1.ApiClient.new_OsintApiClient config) in
  unset (V1.ApiClient.jwtToken config)
  ∧ is_set (V1.ApiClient.apiKey config) "ak_abc123"
  ∧ headers !! "Authorization" ≠ Some "Bearer ak_abc123"
  ∧ headers !! "Authorization" = None
  ∧ headers !! "X-API-Key" = Some "ak_abc123".
Proof. cbn. repeat split; done. Qed.






(** * Further properties of the code *)

(** ** Strings *)

Lemma string_length_app s u :
  String.length (s +:+ u) = (String.length s + String.length u)%nat.
Proof.
  induction s as [|c s IH]; [done|].
  change (S (String.length (s +:+ u))
          = S (String.length s + String.length u)).
  by rewrite IH.
Qed.

Lemma string_app_inj_r s t u : s +:+ u = t +:+ u → s = t.
Proof.
  revert t. induction s as [|c s IH]; intros [|c' t] Heq.
  - done.
  - apply (f_equal String.length) in Heq.
    rewrite !string_length_app in Heq. cbn in Heq. lia.
  - apply (f_equal String.length) in Heq.
    rewrite !string_length_app in Heq. cbn in Heq. lia.
  - change (String c (s +:+ u) = String c' (t +:+ u)) in Heq.
    injection Heq as -> Heq. f_equal. by apply IH.
Qed.

(** ** The construction of the client *)

Section ClientConstruction.
Import ApiClient.

Lemma strip_trailing_slash_app s : strip_trailing_slash (s +:+ "/") = s.
Proof.
  induction s as [|c s IH]; [done|].
  change (strip_trailing_slash (String c (s +:+ "/")) = String c s).
  destruct (s +:+ "/") as [|c' rest] eqn:Hrest.
  - by destruct s.
  - change (String c (strip_trailing_slash (String c' rest)) = String c s).
    by rewrite IH.
Qed.

Lemma strip_trailing_slash_id s :
  (∀ t, s ≠ t +:+ "/") → strip_trailing_slash s = s.
Proof.
  induction s as [|c s IH]; [done|]. intros Hs.
  destruct s as [|c' s].
  - cbn. destruct (Ascii.eqb_spec c "/") as [->|_]; [|done].
    by destruct (Hs "").
  - change (String c (strip_trailing_slash (String c' s))
            = String c (String c' s)).
    f_equal. apply IH. intros t Ht. apply (Hs (String c t)). cbn.
    by rewrite Ht.
Qed.

(** X1. The constructor removes exactly one trailing slash from the base
    URL: a base URL that ends in a slash loses that slash and nothing
    else (so one of two trailing slashes stays), and a base URL that does
    not end in a slash, the empty one included, is kept as it is. *)
Theorem base_url_loses_one_trailing_slash (config : ApiClientConfig) :
  (∀ base, baseUrl config = base +:+ "/" →
           this_baseUrl (new_OsintApiClient config) = base)
  ∧ ((∀ base, baseUrl config ≠ base +:+ "/") →
     this_baseUrl (new_OsintApiClient config) = baseUrl config).
Proof.
  split.
  - intros base Hbase. cbn. rewrite Hbase. apply strip_trailing_slash_app.
  - intros Hbase. cbn. by apply strip_trailing_slash_id.
Qed.

Example two_trailing_slashes :
  strip_trailing_slash "http://localhost:8000//" = "http://localhost:8000/"
  ∧ strip_trailing_slash "" = "".
Proof. done. Qed.

(** X2. Whatever the configuration, the header set of the client has
    [Content-Type] and [Accept] set to [application/json]: no
    authentication branch replaces or removes them. *)
Theorem json_headers_are_always_sent (config : ApiClientConfig) :
  this_headers (new_OsintApiClient config) !! "Content-Type"
  = Some "application/json"
  ∧ this_headers (new_OsintApiClient config) !! "Accept"
    = Some "application/json".
Proof.
  cbn. unfold json_headers.
  destruct (when_set (jwtToken config)), (when_set (apiKey config)),
    (when_set (oryUserId config)), (when_set (oryUserEmail config)),
    (when_set (oryUserRole config)); by simplify_map_eq.
Qed.

End ClientConstruction.

(** ** The requests of [get] and [post] *)

Section GetRequests.
Import ApiClient.
Context `{Platform}.

(** The entries appended to the search parameters are those of the
    parameter object that are neither [undefined] nor [null], one for
    one and in their order, with the values converted by [String]. *)
Lemma appended_entries params :
  Forall2 (fun entry sent =>
             fst sent = fst entry ∧ snd sent = ToString (snd entry))
          (appended params) (omap query_entry (default [] params)).
Proof.
  unfold appended. induction (default [] params) as [|[key value] l IH];
    [constructor|].
  rewrite filter_cons. unfold query_entry at 1. cbn.
  destruct (defined value); cbn; [|done].
  by constructor.
Qed.

(** X3. A [get] issues at most one request. A request that it issues is
    a GET without a body that carries the header set of the client; its
    URL is built from the base URL followed by the endpoint; and the
    entries appended to its search parameters are the entries of
    [params] whose value is neither [undefined] nor [null], one for one,
    in the order of [params] and with repeated keys kept, under the same
    keys, and with the value as [String] prints it. None is appended
    when [params] is absent. *)
Theorem get_request_shape self endpoint params remote :
  (length (issued (get self endpoint params) remote) ≤ 1)%nat
  ∧ Forall (fun r =>
              req_method r = GET
              ∧ req_body r = None
              ∧ req_headers r = this_headers self
              ∧ req_url r = this_baseUrl self +:+ endpoint
              ∧ Forall2 (fun entry sent =>
                           fst sent = fst entry
                           ∧ (prints_exactly (snd entry) →
                              snd sent = ToString (snd entry)))
                        (appended params) (req_query r))
           (issued (get self endpoint params) remote).
Proof.
  rewrite get_issued. split; [cbn; lia|].
  apply Forall_singleton. do 4 (split; [done|]).
  replace (req_query (get_request self endpoint params))
    with (omap query_entry (default [] params))
    by (destruct params; cbn; [by rewrite append_params_omap|done]).
  eapply Forall2_impl; [apply appended_entries|].
  intros entry sent [? ?]. by split.
Qed.

Example query_order_and_repeats :
  omap query_entry
    [("tag", VStr "a"); ("limit", VUndefined); ("tag", VStr "b");
     ("page", VNum 0); ("q", VNull); ("match_all", VBool false)]
  = [("tag", "a"); ("tag", "b"); ("page", "0"); ("match_all", "false")].
Proof. reflexivity. Qed.

(** X19. A [post] issues exactly one request, a POST to the base URL
    followed by the endpoint, with the header set of the client and no
    query string. It has a body, the serialized value, exactly when a
    body value was given and is truthy: a falsy value ([false], [0], the
    empty string, [null]) is not sent. *)
Theorem post_request_shape self endpoint body remote :
  ∃ r, issued (post self endpoint body) remote = [r]
    ∧ req_method r = POST
    ∧ req_url r = this_baseUrl self +:+ endpoint
    ∧ req_query r = []
    ∧ req_headers r = this_headers self
    ∧ ∀ text, req_body r = Some text
              ↔ ∃ value, body = Some value ∧ JSON_truthy value = true
                         ∧ text = JSON_stringify value None.
Proof.
  exists (post_request self endpoint body).
  split; [apply post_issued|]. do 4 (split; [done|]).
  intros text. cbn. destruct body as [value|]; cbn.
  - destruct (JSON_truthy value) eqn:Htruthy.
    + split; [intros [= <-]; by exists value|].
      by intros (value' & [= <-] & _ & ->).
    + split; [done|]. intros (value' & [= <-] & Htrue & _). congruence.
  - split; [done|]. by intros (value & ? & _).
Qed.

(** X20. The outcome of a [get] that has issued its request, and of a
    [post], is decided by the answer to that request: a rejected fetch
    throws the message of the rejection, unchanged; a status outside the
    2xx range throws [API Error <status>: <body>]; a 2xx body that does
    not parse throws the error of the parser; a 2xx body that parses is
    returned as the parsed value, whatever its shape. Nothing is
    retried. *)
Theorem client_call_outcomes self endpoint params body remote :
  let outcome (r : Request) : Completion Json :=
    match remote r with
    | Rejected message => Throw message
    | Responded status text =>
        if ok status then
          match JSON_parse text with
          | Some value => Return value
          | None => Throw (JSON_syntax_error text)
          end
        else Throw ("API Error " +:+ pretty status +:+ ": " +:+ text)
    end in
  (length (issued (get self endpoint params) remote) ≤ 1)%nat
  ∧ Forall (fun r => completion (get self endpoint params) remote = outcome r)
           (issued (get self endpoint params) remote)
  ∧ post self endpoint body remote
    = (outcome (post_request self endpoint body),
       [post_request self endpoint body]).
Proof.
  cbn. unfold issued, completion. rewrite get_run, post_run.
  unfold completion, response_json, api_error.
  split; [by destruct (remote (get_request _ _ _)); cbn; lia|]. split.
  - destruct (remote (get_request _ _ _)) as [status text|message] eqn:Hanswer;
      apply Forall_singleton; rewrite Hanswer; [|done].
    destruct (ok status); [|done]. by destruct (JSON_parse text).
  - destruct (remote _) as [status text|message]; [|done].
    destruct (ok status); [|done]. by destruct (JSON_parse text).
Qed.

End GetRequests.

(** ** Tool calls, end to end *)

Section ToolCalls.
Import ApiClient Mcp Index.
Context `{Platform} (env : Env).

(** Every case of the dispatcher is one [get] of the client, at an
    endpoint that starts with a slash. *)
Lemma cases_are_gets :
  Forall (fun c => ∀ args, ∃ path params,
            snd c args = get (apiClient env) (String "/" path) params)
         (handleToolCall_cases env).
Proof.
  unfold handleToolCall_cases.
  repeat (apply Forall_cons; split; [intros args; eexists _, _; reflexivity|]).
  constructor.
Qed.

Lemma handleToolCall_is_get name args :
  name ∈ (handleToolCall_cases env).*1 →
  ∃ path params,
    handleToolCall env name args
    = get (apiClient env) (String "/" path) params.
Proof.
  intros Hin. unfold handleToolCall.
  destruct (switch_case name (handleToolCall_cases env)
              (fun _ => throw ("Unknown tool: " +:+ name)) Hin)
    as (binding & Hbinding & ->).
  apply list_elem_of_In in Hbinding.
  exact (proj1 (List.Forall_forall _ _) cases_are_gets _ Hbinding args).
Qed.

Lemma callTool_run name args remote :
  callTool env {| params_name := name; params_arguments := args |} remote
  = match handleToolCall env name args remote with
    | (Return result, l) =>
        (Return (text_result (JSON_stringify result (Some 2)) None), l)
    | (Throw message, l) =>
        (Return (text_result ("Error: " +:+ message) (Some true)), l)
    end.
Proof.
  unfold callTool, try_catch, bind, ret; cbn.
  destruct (handleToolCall env name args remote) as [[result|message] l]; cbn;
    by rewrite app_nil_r.
Qed.

Lemma callTool_requests name args remote :
  issued (callTool env {| params_name := name; params_arguments := args |})
    remote = []
  ∨ ∃ path params,
      issued (callTool env {| params_name := name; params_arguments := args |})
        remote = [get_request (apiClient env) (String "/" path) params].
Proof.
  rewrite callTool_issued.
  destruct (decide (name ∈ (handleToolCall_cases env).*1)) as [Hin|Hnotin].
  - right. destruct (handleToolCall_is_get name args Hin)
      as (path & params & ->).
    exists path, params. apply get_issued.
  - left. by rewrite handleToolCall_unknown.
Qed.


(** X5. The call-tool handler answers every request: it never throws,
    it issues at most one request, and its result is a single text block
    that is either the printed result of [handleToolCall], without
    [isError], or [Error: ] followed by the message of the error that
    [handleToolCall] threw, with [isError] set. *)
Theorem callTool_always_answers name args remote :
  ∃ text flag,
    completion
      (callTool env {| params_name := name; params_arguments := args |})
      remote = Return (text_result text flag)
    ∧ (length
         (issued
            (callTool env {| params_name := name; params_arguments := args |})
            remote) ≤ 1)%nat
    ∧ match completion (handleToolCall env name args) remote with
      | Return result => text = JSON_stringify result (Some 2) ∧ flag = None
      | Throw message => text = "Error: " +:+ message ∧ flag = Some true
      end.
Proof.
  assert (length
            (issued
               (callTool env
                  {| params_name := name; params_arguments := args |})
               remote) ≤ 1)%nat as Hlength.
  { destruct (callTool_requests name args remote)
      as [->|(path & params & ->)]; cbn; lia. }
  revert Hlength. unfold completion, issued. rewrite callTool_run.
  destruct (handleToolCall env name args remote) as [[result|message] l];
    cbn; eauto 10.
Qed.

(** X6. The requests of a tool call authenticate from the process
    environment alone: [Authorization] is the bearer of the JWT token
    when that is set, else of the API key when that is set, else absent;
    and no request ever carries an identity-proxy header, since the
    server hands no identity-proxy field to the client. *)
Theorem tool_calls_authenticate_from_the_environment name args remote :
  Forall (fun r =>
            req_headers r !! "Authorization" = bearer_of env
            ∧ req_headers r !! "X-User-ID" = None
            ∧ req_headers r !! "X-User-Email" = None
            ∧ req_headers r !! "X-User-Role" = None)
         (issued
            (callTool env {| params_name := name; params_arguments := args |})
            remote).
Proof.
  destruct (callTool_requests name args remote)
    as [->|(path & params & ->)]; [constructor|].
  apply Forall_singleton. cbn. unfold bearer_of, API_KEY, JWT_TOKEN, json_headers.
  destruct (when_set (OSINT_JWT_TOKEN env)), (when_set (OSINT_API_KEY env));
    by simplify_map_eq.
Qed.

(** X7. The URL of every request of a tool call is built from the base
    URL of the process, which is [OSINT_API_URL] without one trailing
    slash when that variable is set and [http://localhost:8000] when it
    is absent or empty, followed by an endpoint that starts with a
    slash. *)
Theorem tool_call_urls_are_built_on_the_base_url name args remote :
  Forall (fun r =>
            ∃ path,
              req_url r
              = strip_trailing_slash
                  (default "http://localhost:8000"
                     (when_set (OSINT_API_URL env)))
                +:+ String "/" path)
         (issued
            (callTool env {| params_name := name; params_arguments := args |})
            remote).
Proof.
  destruct (callTool_requests name args remote)
    as [->|(path & params & ->)]; [constructor|].
  apply Forall_singleton. exists path. cbn. unfold API_BASE_URL.
  by destruct (when_set (OSINT_API_URL env)).
Qed.

End ToolCalls.

(** ** The argument bag and the request *)

(** Two calls of [get] differ when their endpoints, or the entries
    that they append to the search parameters, differ; on argument bags
    with one field both are computed. *)
Ltac calls_differ :=
  eexists _, _, _, _; split; [reflexivity|]; split; [reflexivity|];
  vm_compute;
  let Heq := fresh in
  intros Heq; simplify_eq;
  try match goal with
      | Heq : _ = _ |- _ => apply string_app_inj_r in Heq; simplify_eq
      end.

Section Arguments.
Import ApiClient Mcp Index.
Context `{Platform} (env : Env).

(** Every entry of the parameter object of a case is a field of the
    argument bag, under its own name or, for [query], under [q]. *)
Lemma cases_params :
  Forall (fun c => ∀ args, ∃ endpoint params,
            snd c args = get (apiClient env) endpoint params
            ∧ ∀ key value, (key, value) ∈ default [] params →
                ∃ field, value = args.[field] ∧ read_from key field)
         (handleToolCall_cases env).
Proof.
  unfold handleToolCall_cases.
  repeat (apply Forall_cons; split;
          [intros args; eexists _, _; split; [reflexivity|];
           intros key value Hin; cbn in Hin;
           repeat (apply elem_of_cons in Hin as [[= -> ->]|Hin];
                   [eexists; split; [reflexivity|]; (by left) || (by right)|]);
           by apply elem_of_nil in Hin|]).
  constructor.
Qed.

Lemma prop_defined (args : Bag) field :
  defined args.[field] = true →
  ∃ value, args !! field = Some value ∧ value = args.[field].
Proof.
  unfold prop. destruct (args !! field) as [value|]; [|done]. by exists value.
Qed.

(** X8. Every entry that a tool call appends to the search parameters of
    its URL is a field that the caller put in the argument bag: the
    dispatcher adds no default and no parameter of its own, and a field
    that is absent or [null] is not appended. The key is the name of the
    field, except that the field [query] is appended as [q], and the
    value is the field as [String] prints it. *)
Theorem query_parameters_come_from_the_bag name args remote :
  Forall (fun r =>
            Forall (fun entry =>
                      ∃ field value,
                        read_from (fst entry) field
                        ∧ args !! field = Some value
                        ∧ value ≠ VUndefined ∧ value ≠ VNull
                        ∧ (prints_exactly value →
                           snd entry = ToString value))
                   (req_query r))
         (issued (handleToolCall env name args) remote).
Proof.
  destruct (decide (name ∈ (handleToolCall_cases env).*1)) as [Hin|Hnotin].
  - unfold handleToolCall.
    destruct (switch_case name (handleToolCall_cases env)
                (fun _ => throw ("Unknown tool: " +:+ name)) Hin)
      as (binding & Hbinding & ->).
    apply list_elem_of_In in Hbinding.
    destruct (proj1 (List.Forall_forall _ _) cases_params _ Hbinding args)
      as (endpoint & params & Hget & Hparams). cbn in Hget.
    rewrite Hget, get_issued. apply Forall_singleton.
    apply list.Forall_forall. intros [key s] Hs. cbn in Hs.
    destruct params as [params|]; cbn in Hs; [|by apply elem_of_nil in Hs].
    rewrite append_params_omap, app_nil_l, list_elem_of_omap in Hs.
    destruct Hs as ([key' value] & Hentry & Hquery).
    unfold query_entry in Hquery; cbn in Hquery.
    destruct (defined value) eqn:Hdefined; [|done]. injection Hquery as <- <-.
    destruct (Hparams _ _ Hentry) as (field & -> & Hfield).
    destruct (prop_defined _ _ Hdefined) as (value & Hvalue & Heq).
    apply defined_iff in Hdefined as [? ?]. rewrite <- Heq in *.
    by exists field, value.
  - rewrite handleToolCall_unknown by done. constructor.
Qed.

Lemma declared_fields_reach_the_call :
  Forall2 (fun t c =>
             name t = fst c
             ∧ ∀ field, field ∈ declared t →
               ∀ v1 v2 : string, v1 ≠ v2 →
                 ∃ endpoint1 params1 endpoint2 params2,
                   snd c {[field := VStr v1]}
                   = get (apiClient env) endpoint1 params1
                   ∧ snd c {[field := VStr v2]}
                     = get (apiClient env) endpoint2 params2
                   ∧ (endpoint1, omap query_entry (default [] params1))
                     ≠ (endpoint2, omap query_entry (default [] params2)))
          tools (handleToolCall_cases env).
Proof.
  unfold tools, handleToolCall_cases.
  repeat (apply Forall2_cons; split; [split; [reflexivity|]|]);
    [..|constructor].
  all: intros field Hfield v1 v2 Hne; unfold declared in Hfield;
    cbn [fst snd name properties fmap list_fmap] in *.
  all: repeat (apply elem_of_cons in Hfield as [->|Hfield]);
    [..|by apply elem_of_nil in Hfield].
  all: calls_differ.
Qed.

(** X9. Every field that the input schema of a tool declares is
    forwarded to the client: called with that field alone, two different
    string values give two calls of [get] that differ in their endpoint
    or in the entries that they append to the search parameters. No
    advertised argument is dropped by the dispatcher. *)
Theorem every_declared_field_is_forwarded t field (v1 v2 : string) :
  t ∈ tools → field ∈ declared t → v1 ≠ v2 →
  ∃ endpoint1 params1 endpoint2 params2,
    handleToolCall env (name t) {[field := VStr v1]}
    = get (apiClient env) endpoint1 params1
    ∧ handleToolCall env (name t) {[field := VStr v2]}
      = get (apiClient env) endpoint2 params2
    ∧ (endpoint1, omap query_entry (default [] params1))
      ≠ (endpoint2, omap query_entry (default [] params2)).
Proof.
  intros Ht Hfield Hne. unfold handleToolCall.
  by apply (switch_zip name
              (fun t binding =>
                 ∀ field, field ∈ declared t →
                   ∀ v1 v2 : string, v1 ≠ v2 →
                     ∃ endpoint1 params1 endpoint2 params2,
                       binding {[field := VStr v1]}
                       = get (apiClient env) endpoint1 params1
                       ∧ binding {[field := VStr v2]}
                         = get (apiClient env) endpoint2 params2
                       ∧ (endpoint1, omap query_entry (default [] params1))
                         ≠ (endpoint2, omap query_entry (default [] params2)))
              tools (handleToolCall_cases env) _
              tools_NoDup declared_fields_reach_the_call t Ht).
Qed.

(** X10. Every binding other than that of [get_message_timeline] depends
    on the fields that the schema of its tool declares and on nothing
    else in the argument bag: two bags that agree on the declared fields
    are dispatched to the same computation. *)
Theorem bindings_keep_to_their_schemas t args1 args2 :
  t ∈ tools → name t ≠ "get_message_timeline" →
  agree_on (declared t) args1 args2 →
  handleToolCall env (name t) args1 = handleToolCall env (name t) args2.
Proof.
  intros Ht Hne Hagree. unfold handleToolCall.
  by apply (switch_zip name
              (fun t binding =>
                 name t ≠ "get_message_timeline" →
                 ∀ args1 args2, agree_on (declared t) args1 args2 →
                                binding args1 = binding args2)
              tools (handleToolCall_cases env) _
              tools_NoDup (bindings_and_schemas env) t Ht Hne).
Qed.


End Arguments.

(** ** The catalogs *)

Section Catalogs.
Import Mcp Prompts Resources.

(** X12. The input schemas are well formed, in the server and in its
    earlier revision: within a schema the declared names are distinct,
    and every required name is a declared one. *)
Theorem schemas_are_well_formed :
  Forall (fun t => NoDup (declared t)
                   ∧ Forall (fun field => field ∈ declared t) (required t))
         Index.tools
  ∧ Forall (fun t => NoDup (declared t)
                     ∧ Forall (fun field => field ∈ declared t) (required t))
           V1.Index.tools.
Proof. split; apply (bool_decide_unpack _); by vm_compute. Qed.

Lemma resource_uris : uri <$> resources
  = ["osint://guide/getting-started"; "osint://reference/topics";
     "osint://reference/event-tiers"; "osint://reference/entity-types";
     "osint://reference/channel-affiliations"; "osint://reference/geolocation";
     "osint://workflows/investigation"].
Proof. reflexivity. Qed.

(** X13. Every resource that the catalog lists has a content, and only
    those have: [getResourceContent] answers a URI with something other
    than [Resource not found: <uri>] exactly when the URI is one of the
    catalog. The URIs of the catalog are distinct, and every resource is
    declared as markdown. *)
Theorem resource_lookup (u : string) :
  (u ∈ uri <$> resources
   ↔ getResourceContent u ≠ "Resource not found: " +:+ u)
  ∧ NoDup (uri <$> resources)
  ∧ Forall (fun r => mimeType r = "text/markdown") resources.
Proof.
  split; [|split].
  - split.
    + rewrite resource_uris. intros Hin.
      repeat (apply elem_of_cons in Hin as [->|Hin]);
        [..|by apply elem_of_nil in Hin].
      all: apply String.eqb_neq; by vm_compute.
    + intros Hfound. destruct (decide (u ∈ uri <$> resources)) as [|Hnotin];
        [done|]. destruct Hfound. unfold getResourceContent.
      by rewrite switch_default.
  - apply (bool_decide_unpack _). by vm_compute.
  - repeat constructor.
Qed.

(** X14. Every prompt that the catalog lists has a template, and only
    those have: whatever the arguments, [getPromptContent] answers a
    name with something other than [Unknown prompt: <name>] exactly when
    the name is one of the catalog. The names are distinct. *)
Theorem prompt_lookup (name : string) (args : gmap string string) :
  (name ∈ prompt_name <$> prompts
   ↔ getPromptContent name args ≠ "Unknown prompt: " +:+ name)
  ∧ NoDup (prompt_name <$> prompts).
Proof.
  split.
  - split.
    + rewrite prompt_names. intros Hin.
      repeat (apply elem_of_cons in Hin as [->|Hin]);
        [..|by apply elem_of_nil in Hin].
      all: intros Heq; apply (f_equal (String.get 0)) in Heq;
        vm_compute in Heq; discriminate Heq.
    + intros Hfound.
      destruct (decide (name ∈ prompt_name <$> prompts)) as [|Hnotin];
        [done|]. destruct Hfound. unfold getPromptContent.
      by rewrite switch_default.
  - apply (bool_decide_unpack _). by vm_compute.
Qed.

Ltac lookups :=
  rewrite ?lookup_delete_eq, ?lookup_insert_eq;
  rewrite ?lookup_delete_ne, ?lookup_insert_ne by done.

(** X15. What a missing prompt argument expands to follows the
    [required] flag of the catalog: leaving out a required argument gives
    the text that the literal value [undefined] gives, and leaving out an
    optional argument gives the text that the empty string gives (the
    section or the default of the template). *)
Theorem missing_prompt_arguments (p : Prompt) (key : string) (required : bool)
    (args : gmap string string) :
  p ∈ prompts → (key, required) ∈ arguments p →
  getPromptContent (prompt_name p) (delete key args)
  = getPromptContent (prompt_name p)
      (<[key := if required then "undefined" else ""]> args).
Proof.
  intros Hp Hkey. unfold prompts in Hp.
  repeat (apply elem_of_cons in Hp as [->|Hp]); [..|by apply elem_of_nil in Hp].
  all: cbn [arguments prompt_name] in *.
  all: repeat (apply elem_of_cons in Hkey as [[= -> ->]|Hkey]);
    [..|by apply elem_of_nil in Hkey].
  all: unfold getPromptContent, switch;
    cbn [find String.eqb Ascii.eqb Bool.eqb fst snd].
  all: unfold investigate_entity, validate_claim, track_event, analyze_channel,
    trace_narrative, daily_briefing, geographic_sitrep, platform_health_check,
    find_viral_content, discover_connections.
  all: lookups; reflexivity.
Qed.

End Catalogs.

(** ** The earlier revision, end to end *)

Section EarlierToolCalls.
Import V1.ApiClient Mcp V1.Index.
Context `{Platform} (env : Index.Env).




(** X17. In the earlier revision every binding, with no exception,
    depends on the declared fields of its tool and on nothing else in
    the argument bag. *)
Theorem V1_bindings_keep_to_their_schemas t args1 args2 :
  t ∈ tools → agree_on (declared t) args1 args2 →
  handleToolCall env (name t) args1 = handleToolCall env (name t) args2.
Proof.
  intros Ht Hagree. unfold handleToolCall.
  by apply (switch_zip name
              (fun t binding =>
                 ∀ args1 args2, agree_on (declared t) args1 args2 →
                                binding args1 = binding args2)
              tools (handleToolCall_cases env) _
              V1_tools_NoDup (V1_bindings_and_schemas env) t Ht).
Qed.

End EarlierToolCalls.

Section EarlierArguments.
Import V1.ApiClient Mcp V1.Index.
Context `{Platform} (env : Index.Env).

Lemma V1_declared_fields_reach_the_call :
  Forall2 (fun t c =>
             name t = fst c
             ∧ ∀ field, field ∈ declared t →
               ∀ v1 v2 : string, v1 ≠ v2 →
                 ∃ endpoint1 params1 endpoint2 params2,
                   snd c {[field := VStr v1]}
                   = get (apiClient env) endpoint1 params1
                   ∧ snd c {[field := VStr v2]}
                     = get (apiClient env) endpoint2 params2
                   ∧ (endpoint1, omap query_entry (default [] params1))
                     ≠ (endpoint2, omap query_entry (default [] params2)))
          tools (handleToolCall_cases env).
Proof.
  unfold tools, handleToolCall_cases.
  repeat (apply Forall2_cons; split; [split; [reflexivity|]|]);
    [..|constructor].
  all: intros field Hfield v1 v2 Hne; unfold declared in Hfield;
    cbn [fst snd name properties fmap list_fmap] in *.
  all: repeat (apply elem_of_cons in Hfield as [->|Hfield]);
    [..|by apply elem_of_nil in Hfield].
  all: calls_differ.
Qed.

(** X18. In the earlier revision too, every field that the input schema
    of a tool declares is forwarded to the client: called with that
    field alone, two different string values give two calls of [get]
    that differ in their endpoint or in the entries that they append to
    the search parameters. *)
Theorem V1_every_declared_field_is_forwarded t field (v1 v2 : string) :
  t ∈ tools → field ∈ declared t → v1 ≠ v2 →
  ∃ endpoint1 params1 endpoint2 params2,
    handleToolCall env (name t) {[field := VStr v1]}
    = get (apiClient env) endpoint1 params1
    ∧ handleToolCall env (name t) {[field := VStr v2]}
      = get (apiClient env) endpoint2 params2
    ∧ (endpoint1, omap query_entry (default [] params1))
      ≠ (endpoint2, omap query_entry (default [] params2)).
Proof.
  intros Ht Hfield Hne. unfold handleToolCall.
  by apply (switch_zip name
              (fun t binding =>
                 ∀ field, field ∈ declared t →
                   ∀ v1 v2 : string, v1 ≠ v2 →
                     ∃ endpoint1 params1 endpoint2 params2,
                       binding {[field := VStr v1]}
                       = get (apiClient env) endpoint1 params1
                       ∧ binding {[field := VStr v2]}
                         = get (apiClient env) endpoint2 params2
                       ∧ (endpoint1, omap query_entry (default [] params1))
                         ≠ (endpoint2, omap query_entry (default [] params2)))
              tools (handleToolCall_cases env) _
              V1_tools_NoDup V1_declared_fields_reach_the_call t Ht).
Qed.

End EarlierArguments.

(** ** The properties on sample calls *)

Section Samples.
Import Mcp.

(** Two message identifiers. *)
Lemma every_declared_field_is_forwarded_witness :
  let self := Index.apiClient unconfigured in
  get_message_tool ∈ Index.tools
  ∧ "message_id" ∈ declared get_message_tool
  ∧ "5" ≠ "6"
  ∧ ∃ endpoint1 params1 endpoint2 params2,
      Index.handleToolCall (H:=text_platform) unconfigured "get_message"
        {["message_id" := VStr "5"]}
      = ApiClient.get (H:=text_platform) self endpoint1 params1
      ∧ Index.handleToolCall (H:=text_platform) unconfigured "get_message"
          {["message_id" := VStr "6"]}
        = ApiClient.get (H:=text_platform) self endpoint2 params2
      ∧ (endpoint1, omap query_entry (default [] params1))
        ≠ (endpoint2, omap query_entry (default [] params2)).
Proof.
  intros self.
  assert (get_message_tool ∈ Index.tools) as Hlisted
    by (apply list_elem_of_lookup; exists 1%nat; reflexivity).
  assert ("message_id" ∈ declared get_message_tool) as Hdeclared
    by (by apply (bool_decide_unpack _); vm_compute).
  assert ("5" ≠ "6") as Hdifferent by discriminate.
  split; [exact Hlisted|]. split; [exact Hdeclared|].
  split; [exact Hdifferent|].
  exact (every_declared_field_is_forwarded (H:=text_platform) unconfigured
           get_message_tool "message_id" "5" "6"
           Hlisted Hdeclared Hdifferent).
Defined.

Lemma V1_every_declared_field_is_forwarded_witness :
  let self := V1.Index.apiClient unconfigured in
  get_message_tool ∈ V1.Index.tools
  ∧ "message_id" ∈ declared get_message_tool
  ∧ "5" ≠ "6"
  ∧ ∃ endpoint1 params1 endpoint2 params2,
      V1.Index.handleToolCall (H:=text_platform) unconfigured "get_message"
        {["message_id" := VStr "5"]}
      = V1.ApiClient.get (H:=text_platform) self endpoint1 params1
      ∧ V1.Index.handleToolCall (H:=text_platform) unconfigured "get_message"
          {["message_id" := VStr "6"]}
        = V1.ApiClient.get (H:=text_platform) self endpoint2 params2
      ∧ (endpoint1, omap query_entry (default [] params1))
        ≠ (endpoint2, omap query_entry (default [] params2)).
Proof.
  intros self.
  assert (get_message_tool ∈ V1.Index.tools) as Hlisted
    by (apply list_elem_of_lookup; exists 1%nat; reflexivity).
  assert ("message_id" ∈ declared get_message_tool) as Hdeclared
    by (by apply (bool_decide_unpack _); vm_compute).
  assert ("5" ≠ "6") as Hdifferent by discriminate.
  split; [exact Hlisted|]. split; [exact Hdeclared|].
  split; [exact Hdifferent|].
  exact (V1_every_declared_field_is_forwarded (H:=text_platform) unconfigured
           get_message_tool "message_id" "5" "6"
           Hlisted Hdeclared Hdifferent).
Defined.

(** A bag with a field that [get_message] does not declare. *)
Lemma bindings_keep_to_their_schemas_witness :
  let args1 : Bag := {["message_id" := VNum 5]} in
  let args2 : Bag := <["include_similar" := VBool true]> args1 in
  get_message_tool ∈ Index.tools
  ∧ name get_message_tool ≠ "get_message_timeline"
  ∧ agree_on (declared get_message_tool) args1 args2
  ∧ Index.handleToolCall (H:=text_platform) unconfigured "get_message" args1
    = Index.handleToolCall (H:=text_platform) unconfigured "get_message" args2.
Proof.
  intros args1 args2.
  assert (get_message_tool ∈ Index.tools) as Hlisted
    by (apply list_elem_of_lookup; exists 1%nat; reflexivity).
  assert (name get_message_tool ≠ "get_message_timeline") as Hother
    by discriminate.
  assert (agree_on (declared get_message_tool) args1 args2) as Hagree.
  { intros field Hfield. apply list_elem_of_In in Hfield. vm_compute in Hfield.
    destruct Hfield as [<-|[]]. reflexivity. }
  split; [exact Hlisted|]. split; [exact Hother|]. split; [exact Hagree|].
  exact (bindings_keep_to_their_schemas (H:=text_platform) unconfigured
           get_message_tool args1 args2 Hlisted Hother Hagree).
Defined.

Lemma V1_bindings_keep_to_their_schemas_witness :
  let args1 : Bag := {["message_id" := VNum 5]} in
  let args2 : Bag := <["include_similar" := VBool true]> args1 in
  get_message_tool ∈ V1.Index.tools
  ∧ agree_on (declared get_message_tool) args1 args2
  ∧ V1.Index.handleToolCall (H:=text_platform) unconfigured "get_message" args1
    = V1.Index.handleToolCall (H:=text_platform) unconfigured "get_message"
        args2.
Proof.
  intros args1 args2.
  assert (get_message_tool ∈ V1.Index.tools) as Hlisted
    by (apply list_elem_of_lookup; exists 1%nat; reflexivity).
  assert (agree_on (declared get_message_tool) args1 args2) as Hagree.
  { intros field Hfield. apply list_elem_of_In in Hfield. vm_compute in Hfield.
    destruct Hfield as [<-|[]]. reflexivity. }
  split; [exact Hlisted|]. split; [exact Hagree|].
  exact (V1_bindings_keep_to_their_schemas (H:=text_platform) unconfigured
           get_message_tool args1 args2 Hlisted Hagree).
Defined.

(** An entity investigation without the optional entity type. *)
Lemma missing_prompt_arguments_witness :
  let args : gmap string string :=
    <["entity_name" := "Wagner Group"]> {["entity_type" := "organization"]} in
  investigate_entity_prompt ∈ Prompts.prompts
  ∧ ("entity_type", false) ∈ Prompts.arguments investigate_entity_prompt
  ∧ Prompts.getPromptContent "investigate_entity" (delete "entity_type" args)
    = Prompts.getPromptContent "investigate_entity"
        (<["entity_type" := ""]> args).
Proof.
  intros args.
  assert (investigate_entity_prompt ∈ Prompts.prompts) as Hlisted
    by (apply list_elem_of_lookup; exists 0%nat; reflexivity).
  assert (("entity_type", false)
            ∈ Prompts.arguments investigate_entity_prompt) as Hargument
    by (apply list_elem_of_lookup; exists 1%nat; reflexivity).
  split; [exact Hlisted|]. split; [exact Hargument|].
  exact (missing_prompt_arguments investigate_entity_prompt "entity_type"
           false args Hlisted Hargument).
Defined.

End Samples.
